(** * dnsfs: a file store served over DNS TXT records

    A shallow embedding of [dnsfs_server.py] and [dnsfs_client.py], and the
    properties of the chunking protocol they implement.

    Conventions of the embedding.
    - Python [str] values are [string]s.  Every string the server sees has
      been rendered by the DNS layer, which escapes everything outside
      printable ASCII, so characters are ASCII codes.  The client reads
      texts that come from the network; what is said of its reading of
      numbers is said for ASCII texts.
    - Python [bytes] values are [list byte].
    - Python [int] is [Z]; lengths and loop counters that cannot be negative
      are [nat].
    - A raised exception is the [Raise] case of [result].
    - The store directory is a finite map from entry names to nodes. *)

From Stdlib Require Import ZArith NArith Lia List Ascii DecimalString.
From Stdlib.Strings Require Import Byte.
From Stdlib Require String DecimalNat DecimalFacts.
From stdpp Require Import gmap strings list.

Local Open Scope nat_scope.

(** ** Exceptions *)

Inductive exn : Type :=
| KeyError
| ValueError
| FileNotFoundError
| RuntimeError
| TransportError
| BinasciiError
| UnicodeEncodeError.

Inductive result (A : Type) : Type :=
| Ok (a : A)
| Raise (e : exn).
Arguments Ok {A} a.
Arguments Raise {A} e.

Definition bind {A B : Type} (r : result A) (k : A -> result B) : result B :=
  match r with
  | Ok a => k a
  | Raise e => Raise e
  end.

Definition is_ok {A : Type} (r : result A) : bool :=
  match r with
  | Ok _ => true
  | Raise _ => false
  end.

(** ** The Python string and integer primitives the programs use *)

Module Py.

Definition quote_char : ascii := "034"%char.

(** [c in s] for a one-character [c]. *)
Fixpoint mem_char (c : ascii) (s : string) : bool :=
  match s with
  | EmptyString => false
  | String d s' => Ascii.eqb c d || mem_char c s'
  end.

Definition is_upper (c : ascii) : bool :=
  (65 <=? nat_of_ascii c) && (nat_of_ascii c <=? 90).

Definition lower_char (c : ascii) : ascii :=
  if is_upper c then ascii_of_nat (nat_of_ascii c + 32) else c.

(** [s.lower()] *)
Fixpoint lower (s : string) : string :=
  match s with
  | EmptyString => EmptyString
  | String c s' => String (lower_char c) (lower s')
  end.

(** [s[n:]] for [0 <= n] *)
Fixpoint drop (n : nat) (s : string) : string :=
  match n, s with
  | 0, _ => s
  | S _, EmptyString => EmptyString
  | S k, String _ s' => drop k s'
  end.

(** [s[i:j]] for [0 <= i], [0 <= j]; Python clamps both ends to the
    length of [s], as [String.substring] does. *)
Definition slice (s : string) (i j : nat) : string :=
  String.substring i (j - i) s.

(** [s.startswith(p)] *)
Definition startswith (s p : string) : bool := String.prefix p s.

(** [s.endswith(p)] *)
Definition endswith (s p : string) : bool :=
  (String.length p <=? String.length s)
  && String.eqb (drop (String.length s - String.length p) s) p.

(** [s[:-n]] for [0 < n]: everything but the last [n] characters, and
    the empty string when [s] is shorter than [n]. *)
Definition drop_last (n : nat) (s : string) : string :=
  String.substring 0 (String.length s - n) s.

Fixpoint lstrip_chars (cs : string) (s : string) : string :=
  match s with
  | EmptyString => EmptyString
  | String c s' => if mem_char c cs then lstrip_chars cs s' else s
  end.

(** [s.strip(cs)]: drops leading and trailing characters that occur in
    [cs]. *)
Definition strip_chars (cs : string) (s : string) : string :=
  String.rev (lstrip_chars cs (String.rev (lstrip_chars cs s))).

(** The ASCII characters for which [str.isspace] holds. *)
Definition whitespace : string :=
  String "009" (String "010" (String "011" (String "012" (String "013"
  (String "028" (String "029" (String "030" (String "031" " ")))))))).

(** [s.strip()] *)
Definition strip (s : string) : string := strip_chars whitespace s.

(** [s.split(sep)] for a one-character separator: never empty, one more
    field than there are separators. *)
Fixpoint split (sep : ascii) (s : string) : list string :=
  match s with
  | EmptyString => [EmptyString]
  | String c s' =>
      if Ascii.eqb c sep then EmptyString :: split sep s'
      else match split sep s' with
           | h :: t => String c h :: t
           | [] => [String c EmptyString]
           end
  end.

(** [s.split(sep, 1)] when [sep in s]: the text before the first
    separator and the text after it; [None] when [sep] does not occur. *)
Fixpoint split_once (sep : ascii) (s : string) : option (string * string) :=
  match s with
  | EmptyString => None
  | String c s' =>
      if Ascii.eqb c sep then Some (EmptyString, s')
      else match split_once sep s' with
           | Some (k, v) => Some (String c k, v)
           | None => None
           end
  end.

(** [sep.join(parts)] with the empty separator. *)
Fixpoint join (parts : list string) : string :=
  match parts with
  | [] => EmptyString
  | p :: ps => p +:+ join ps
  end.

(** [range(start, stop, step)] for non-negative bounds and [0 < step].
    The loop emits [start] while it is below [stop]; [fuel] bounds the
    number of elements, and [stop] is always enough. *)
Fixpoint range_from (fuel start stop step : nat) : list nat :=
  match fuel with
  | O => []
  | S fuel' =>
      if start <? stop
      then start :: range_from fuel' (start + step) stop step
      else []
  end.

Definition range (start stop step : nat) : list nat :=
  range_from stop start stop step.

(** [str(n)] for a non-negative integer. *)
Definition str_of_nat (n : nat) : string :=
  NilEmpty.string_of_uint (Nat.to_uint n).

Definition digit_val (c : ascii) : option Z :=
  let n := nat_of_ascii c in
  if (48 <=? n) && (n <=? 57) then Some (Z.of_nat (n - 48)) else None.

(** The digit part of an integer literal read by [int]: decimal digits,
    with single underscores allowed between digits.  [acc] is the value
    read so far, [prev_digit] tells whether the previous character was a
    digit. *)
Fixpoint int_digits (s : string) (acc : Z) (prev_digit : bool) : option Z :=
  match s with
  | EmptyString => if prev_digit then Some acc else None
  | String c s' =>
      match digit_val c with
      | Some d => int_digits s' (10 * acc + d)%Z true
      | None =>
          if Ascii.eqb c "_" && prev_digit
          then match s' with
               | EmptyString => None
               | String c' _ =>
                   match digit_val c' with
                   | Some _ => int_digits s' acc false
                   | None => None
                   end
               end
          else None
      end
  end.

(** The characters [int] skips around the literal of an ASCII string:
    tab, line feed, vertical tab, form feed, carriage return and space.
    Unlike [str.strip], it does not skip the separators 28 to 31. *)
Definition int_space : string :=
  String "009" (String "010" (String "011" (String "012" (String "013"
  " ")))).

(** [int(s)] for an ASCII string [s]: surrounding whitespace is dropped,
    one sign is allowed, then come the digits.  [None] stands for
    [ValueError].  Two things [int] does are outside this definition:
    it also reads the decimal digits that are not ASCII, and recent
    versions refuse a literal of more than 4300 digits. *)
Definition int (s : string) : option Z :=
  match strip_chars int_space s with
  | String "+" s' => int_digits s' 0%Z false
  | String "-" s' => option_map Z.opp (int_digits s' 0%Z false)
  | s' => int_digits s' 0%Z false
  end.

End Py.

(** ** Base64 (Python's [base64] module)

    [base64.b64encode] follows RFC 4648, section 4: three bytes give four
    characters of the alphabet, a shorter final group is padded with [=].
    [base64.b64decode] is the lenient decoder of [binascii.a2b_base64]:
    characters outside the alphabet are skipped, decoding stops at a
    complete padding, and an incomplete final group is an error. *)

Module Base64.

Definition table_b2a : list ascii :=
  String.list_ascii_of_string
    "ABCDEFGHIJKLMNOPQRSTUVWXYZabcdefghijklmnopqrstuvwxyz0123456789+/".

Definition pad : ascii := "="%char.

(** The character of a six-bit value. *)
Definition b2a (v : N) : ascii := nth (N.to_nat v) table_b2a pad.

Fixpoint index_of (c : ascii) (l : list ascii) (i : N) : option N :=
  match l with
  | [] => None
  | d :: l' => if Ascii.eqb c d then Some i else index_of c l' (N.succ i)
  end.

(** The six-bit value of a character of the alphabet. *)
Definition a2b (c : ascii) : option N := index_of c table_b2a 0%N.

Section Sextets.
Local Open Scope N_scope.

Definition sextet1 (a : byte) : N := N.shiftr (Byte.to_N a) 2.
Definition sextet2 (a b : byte) : N :=
  N.lor (N.shiftl (N.land (Byte.to_N a) 3) 4) (N.shiftr (Byte.to_N b) 4).
Definition sextet3 (b c : byte) : N :=
  N.lor (N.shiftl (N.land (Byte.to_N b) 15) 2) (N.shiftr (Byte.to_N c) 6).
Definition sextet4 (c : byte) : N := N.land (Byte.to_N c) 63.

(** Storing into an [unsigned char]. *)
Definition to_byte (v : N) : byte :=
  match Byte.of_N (v mod 256) with
  | Some b => b
  | None => x00
  end.
End Sextets.

Fixpoint b64encode (data : list byte) : string :=
  match data with
  | [] => EmptyString
  | [a] =>
      String (b2a (sextet1 a)) (String (b2a (sextet2 a x00))
        (String pad (String pad EmptyString)))
  | [a; b] =>
      String (b2a (sextet1 a)) (String (b2a (sextet2 a b))
        (String (b2a (sextet3 b x00)) (String pad EmptyString)))
  | a :: b :: c :: rest =>
      String (b2a (sextet1 a)) (String (b2a (sextet2 a b))
        (String (b2a (sextet3 b c)) (String (b2a (sextet4 c))
          (b64encode rest))))
  end.

(** The decoding loop.  [quad_pos] counts the characters of the current
    group read so far, [leftchar] holds the bits not yet written out,
    [pads] counts the padding characters seen since the last character
    of the alphabet, [acc] is the output in reverse. *)
Fixpoint a2b_loop (s : string) (quad_pos : nat) (leftchar : N) (pads : nat)
    (acc : list byte) : result (list byte) :=
  match s with
  | EmptyString =>
      if quad_pos =? 0 then Ok (rev acc) else Raise BinasciiError
  | String c s' =>
      if Ascii.eqb c pad then
        if (2 <=? quad_pos) && (4 <=? quad_pos + S pads)
        then Ok (rev acc)
        else a2b_loop s' quad_pos leftchar
               (if 2 <=? quad_pos then S pads else pads) acc
      else
        match a2b c with
        | None => a2b_loop s' quad_pos leftchar pads acc
        | Some v =>
            match quad_pos with
            | 0 => a2b_loop s' 1 v 0 acc
            | 1 =>
                a2b_loop s' 2 (N.land v 15) 0
                  (to_byte (N.lor (N.shiftl leftchar 2) (N.shiftr v 4)) :: acc)
            | 2 =>
                a2b_loop s' 3 (N.land v 3) 0
                  (to_byte (N.lor (N.shiftl leftchar 4) (N.shiftr v 2)) :: acc)
            | _ =>
                a2b_loop s' 0 0%N 0
                  (to_byte (N.lor (N.shiftl leftchar 6) v) :: acc)
            end
        end
  end.

Definition a2b_base64 (s : string) : result (list byte) :=
  a2b_loop s 0 0%N 0 [].

Definition is_ascii (c : ascii) : bool := nat_of_ascii c <? 128.

Fixpoint all_ascii (s : string) : bool :=
  match s with
  | EmptyString => true
  | String c s' => is_ascii c && all_ascii s'
  end.

(** [base64.b64decode(s.encode("ascii"))] *)
Definition b64decode_str (s : string) : result (list byte) :=
  if all_ascii s then a2b_base64 s else Raise UnicodeEncodeError.

End Base64.


(** ** SHA-256 (Python's [hashlib.sha256]), after FIPS 180-4

    Words are 32-bit values held in [N]; every operation that can carry
    out of 32 bits is reduced explicitly. *)

Module Sha256.
Local Open Scope N_scope.

Definition word_mask : N := 0xFFFFFFFF.

Definition add32 (x y : N) : N := N.land (x + y) word_mask.

Definition rotr (n x : N) : N :=
  N.lor (N.shiftr x n) (N.land (N.shiftl x (32 - n)) word_mask).

Definition not32 (x : N) : N := N.lxor x word_mask.

Definition Ch (x y z : N) : N := N.lxor (N.land x y) (N.land (not32 x) z).
Definition Maj (x y z : N) : N :=
  N.lxor (N.lxor (N.land x y) (N.land x z)) (N.land y z).
Definition big_sigma0 (x : N) : N :=
  N.lxor (N.lxor (rotr 2 x) (rotr 13 x)) (rotr 22 x).
Definition big_sigma1 (x : N) : N :=
  N.lxor (N.lxor (rotr 6 x) (rotr 11 x)) (rotr 25 x).
Definition small_sigma0 (x : N) : N :=
  N.lxor (N.lxor (rotr 7 x) (rotr 18 x)) (N.shiftr x 3).
Definition small_sigma1 (x : N) : N :=
  N.lxor (N.lxor (rotr 17 x) (rotr 19 x)) (N.shiftr x 10).

(** Round constants: the fractional parts of the cube roots of the
    first sixty-four primes. *)
Definition round_constants : list N :=
  [
    0x428A2F98; 0x71374491; 0xB5C0FBCF; 0xE9B5DBA5;
    0x3956C25B; 0x59F111F1; 0x923F82A4; 0xAB1C5ED5;
    0xD807AA98; 0x12835B01; 0x243185BE; 0x550C7DC3;
    0x72BE5D74; 0x80DEB1FE; 0x9BDC06A7; 0xC19BF174;
    0xE49B69C1; 0xEFBE4786; 0x0FC19DC6; 0x240CA1CC;
    0x2DE92C6F; 0x4A7484AA; 0x5CB0A9DC; 0x76F988DA;
    0x983E5152; 0xA831C66D; 0xB00327C8; 0xBF597FC7;
    0xC6E00BF3; 0xD5A79147; 0x06CA6351; 0x14292967;
    0x27B70A85; 0x2E1B2138; 0x4D2C6DFC; 0x53380D13;
    0x650A7354; 0x766A0ABB; 0x81C2C92E; 0x92722C85;
    0xA2BFE8A1; 0xA81A664B; 0xC24B8B70; 0xC76C51A3;
    0xD192E819; 0xD6990624; 0xF40E3585; 0x106AA070;
    0x19A4C116; 0x1E376C08; 0x2748774C; 0x34B0BCB5;
    0x391C0CB3; 0x4ED8AA4A; 0x5B9CCA4F; 0x682E6FF3;
    0x748F82EE; 0x78A5636F; 0x84C87814; 0x8CC70208;
    0x90BEFFFA; 0xA4506CEB; 0xBEF9A3F7; 0xC67178F2
  ].

(** Initial hash value: the fractional parts of the square roots of the
    first eight primes. *)
Definition initial_hash : list N :=
  [
    0x6A09E667; 0xBB67AE85; 0x3C6EF372; 0xA54FF53A;
    0x510E527F; 0x9B05688C; 0x1F83D9AB; 0x5BE0CD19
  ].

(** Big-endian bytes of the [k] low bytes of [v]. *)
Fixpoint be_bytes (k : nat) (v : N) : list byte :=
  match k with
  | O => []
  | S k' => be_bytes k' (N.shiftr v 8) ++ [Base64.to_byte v]
  end.

(** The message followed by a one bit, zero bits up to 56 modulo 64
    bytes, and the length in bits on eight bytes. *)
Definition pad_message (msg : list byte) : list byte :=
  let l := length msg in
  msg ++ x80 :: repeat x00 ((119 - l mod 64) mod 64)%nat
      ++ be_bytes 8 (8 * N.of_nat l).

Fixpoint be_words (bs : list byte) : list N :=
  match bs with
  | a :: b :: c :: d :: rest =>
      (N.shiftl (Byte.to_N a) 24 + N.shiftl (Byte.to_N b) 16
       + N.shiftl (Byte.to_N c) 8 + Byte.to_N d) :: be_words rest
  | _ => []
  end.

(** Extends the message schedule [w] by [k] words. *)
Fixpoint schedule (k : nat) (w : list N) : list N :=
  match k with
  | O => w
  | S k' =>
      let t := length w in
      let at_back (d : nat) := nth (t - d)%nat w 0 in
      schedule k'
        (w ++ [add32 (add32 (small_sigma1 (at_back 2%nat)) (at_back 7%nat))
                     (add32 (small_sigma0 (at_back 15%nat)) (at_back 16%nat))])
  end.

Record regs : Type :=
  Regs { ra : N; rb : N; rc : N; rd : N; re : N; rf : N; rg : N; rh : N }.

Definition round (r : regs) (kw : N * N) : regs :=
  let t1 := add32 (add32 (add32 (rh r) (big_sigma1 (re r)))
                         (add32 (Ch (re r) (rf r) (rg r)) (fst kw))) (snd kw) in
  let t2 := add32 (big_sigma0 (ra r)) (Maj (ra r) (rb r) (rc r)) in
  Regs (add32 t1 t2) (ra r) (rb r) (rc r) (add32 (rd r) t1) (re r) (rf r) (rg r).

Definition regs_of (h : list N) : regs :=
  Regs (nth 0 h 0) (nth 1 h 0) (nth 2 h 0) (nth 3 h 0)
       (nth 4 h 0) (nth 5 h 0) (nth 6 h 0) (nth 7 h 0).

Definition list_of (r : regs) : list N :=
  [ra r; rb r; rc r; rd r; re r; rf r; rg r; rh r].

Definition compress (h : list N) (block : list N) : list N :=
  let w := schedule 48 block in
  let r := fold_left round (combine round_constants w) (regs_of h) in
  map (fun p => add32 (fst p) (snd p)) (combine h (list_of r)).

(** Hashes the words of a padded message, sixteen words at a time;
    [fuel] bounds the number of blocks. *)
Fixpoint hash_blocks (fuel : nat) (h : list N) (ws : list N) : list N :=
  match fuel, ws with
  | S fuel', _ :: _ =>
      hash_blocks fuel' (compress h (firstn 16 ws)) (skipn 16 ws)
  | _, _ => h
  end.

Definition digest (msg : list byte) : list byte :=
  let ws := be_words (pad_message msg) in
  concat (map (be_bytes 4) (hash_blocks (length ws) initial_hash ws)).

Definition hex_digit (v : N) : ascii :=
  nth (N.to_nat v) (String.list_ascii_of_string "0123456789abcdef") "0"%char.

Fixpoint hex_of_bytes (bs : list byte) : string :=
  match bs with
  | [] => EmptyString
  | b :: bs' =>
      String (hex_digit (N.shiftr (Byte.to_N b) 4))
        (String (hex_digit (N.land (Byte.to_N b) 15)) (hex_of_bytes bs'))
  end.

(** [hashlib.sha256(data).hexdigest()] *)
Definition hexdigest (msg : list byte) : string := hex_of_bytes (digest msg).

End Sha256.


(** ** The server, [dnsfs_server.py] *)

Module Server.

Definition ZONE : string := "lab.".
Definition TTL : nat := 60.
Definition CHUNK_CHARS : nat := 180.

(** The record type code of TXT.  [QTYPE] maps codes to names one to
    one, so the name of a code is TXT exactly when the code is 16. *)
Definition QTYPE_TXT : N := 16%N.

(** *** The store directory *)

Inductive node : Type :=
| RegularFile (content : list byte)
| Directory.

(** [p.exists() and p.is_file()] followed by [p.read_bytes()], for the
    path [STORE_DIR / entry].  The empty entry name is the store
    directory itself, which is not a regular file. *)
Definition read_file (store : gmap string node) (entry : string)
    : option (list byte) :=
  match entry with
  | EmptyString => None
  | _ =>
      match store !! entry with
      | Some (RegularFile content) => Some content
      | _ => None
      end
  end.

(** *** Helpers *)

Definition ok : string := "abcdefghijklmnopqrstuvwxyz0123456789-_".

Fixpoint keep_ok (s : string) : string :=
  match s with
  | EmptyString => EmptyString
  | String c s' =>
      if Py.mem_char c ok then String c (keep_ok s') else keep_ok s'
  end.

Definition s_name (s : string) : string := keep_ok (Py.lower s).

Definition candidates (name : string) : list string :=
  [name; name +:+ ".bin"; name +:+ ".txt"].

Fixpoint first_file (store : gmap string node) (ps : list string)
    : option (list byte) :=
  match ps with
  | [] => None
  | p :: ps' =>
      match read_file store p with
      | Some content => Some content
      | None => first_file store ps'
      end
  end.

(** [None] stands for [FileNotFoundError]. *)
Definition f_bytes (store : gmap string node) (name : string)
    : option (list byte) :=
  first_file store (candidates name).

Definition b64_chunks (data : list byte) : list string :=
  let b64 := Base64.b64encode data in
  map (fun i => Py.slice b64 i (i + CHUNK_CHARS))
      (Py.range 0 (String.length b64) CHUNK_CHARS).

Definition sha256_hex (data : list byte) : string := Sha256.hexdigest data.

(** *** DNS records, as far as the resolver reads and writes them *)

Record question : Type := Question {
  qname : string;      (* [str(request.q.qname)], with its final dot *)
  qtype : N
}.

Record request : Type := Request {
  req_id : N;
  req_q : question
}.

Inductive rcode : Type := NOERROR | NXDOMAIN.

Record rr : Type := RR {
  rr_name : string;
  rr_type : N;
  rr_ttl : nat;
  rr_txt : string
}.

Record reply : Type := Reply {
  rep_id : N;
  rep_rcode : rcode;
  rep_q : question;
  rep_rr : list rr
}.

Definition set_rcode (r : reply) (c : rcode) : reply :=
  Reply (rep_id r) c (rep_q r) (rep_rr r).

Definition add_answer (r : reply) (a : rr) : reply :=
  Reply (rep_id r) (rep_rcode r) (rep_q r) (rep_rr r ++ [a]).

Definition welcome : string := "dnsfs-lab: use meta.<name>.lab".

Definition meta_text (data : list byte) : string :=
  "chunks=" +:+ Py.str_of_nat (length (b64_chunks data))
  +:+ ";enc=base64;sha256=" +:+ sha256_hex data
  +:+ ";bytes=" +:+ Py.str_of_nat (length data).

(** *** The resolver *)

Definition resolve (store : gmap string node) (req : request) : reply :=
  let qname := Py.lower (qname (req_q req)) in
  let reply := Reply (req_id req) NOERROR (req_q req) [] in
  if negb (Py.endswith qname ZONE) then set_rcode reply NXDOMAIN
  else if negb (N.eqb (qtype (req_q req)) QTYPE_TXT)
  then set_rcode reply NXDOMAIN
  else
    let label :=
      Py.strip_chars "." (Py.drop_last (String.length ZONE) qname) in
    if String.eqb label EmptyString
    then add_answer reply (RR qname QTYPE_TXT TTL welcome)
    else
      let parts := Py.split "." label in
      if (length parts =? 2) && String.eqb (nth 0 parts EmptyString) "meta"
      then
        let name := s_name (nth 1 parts EmptyString) in
        match f_bytes store name with
        | None => set_rcode reply NXDOMAIN
        | Some data =>
            add_answer reply (RR qname QTYPE_TXT TTL (meta_text data))
        end
      else if (length parts =? 2)
              && Py.startswith (nth 0 parts EmptyString) "chunk"
      then
        let name := s_name (nth 1 parts EmptyString) in
        match Py.int (Py.drop 5 (nth 0 parts EmptyString)) with
        | None => set_rcode reply NXDOMAIN
        | Some idx =>
            match f_bytes store name with
            | None => set_rcode reply NXDOMAIN
            | Some data =>
                let chunks := b64_chunks data in
                if (idx <? 0)%Z || (Z.of_nat (length chunks) <=? idx)%Z
                then set_rcode reply NXDOMAIN
                else
                  add_answer reply
                    (RR qname QTYPE_TXT TTL
                        (nth (Z.to_nat idx) chunks EmptyString))
            end
        end
      else set_rcode reply NXDOMAIN.

(** What a reply tells the other side: its status and, when there is an
    answer, the text of the first record. *)
Definition payload (r : reply) : option string :=
  match rep_rr r with
  | [] => None
  | a :: _ => Some (rr_txt a)
  end.

End Server.

(** ** The client, [dnsfs_client.py] *)

Module Client.

Definition ZONE : string := "lab".

(** What [DNSRecord.parse] gives back for an answered query: the status
    code of the header and the records, each as [str] renders its
    data. *)
Record packet : Type := Packet {
  p_rcode : N;
  p_rr : list string
}.

Section Fetch.

(** The network is a collaborator: [send] takes the query name and the
    state of the network, and gives back an answer, or nothing when
    the exchange times out, together with the new state. *)
Context {Net : Type}.
Variable send : string -> Net -> option packet * Net.

(** The client's side of the world: the network and the files it has
    written, by path. *)
Record world : Type := World {
  net : Net;
  files : gmap string (list byte)
}.

(** Computations that read and change the world and may raise. *)
Definition M (A : Type) : Type := world -> result A * world.

Definition ret {A : Type} (a : A) : M A := fun w => (Ok a, w).

Definition raise {A : Type} (e : exn) : M A := fun w => (Raise e, w).

Definition mbind {A B : Type} (m : M A) (k : A -> M B) : M B :=
  fun w =>
    match m w with
    | (Ok a, w') => k a w'
    | (Raise e, w') => (Raise e, w')
    end.

Definition lift {A : Type} (r : result A) : M A := fun w => (r, w).

Local Notation "x <- m ;; k" := (mbind m (fun x => k))
  (at level 100, m at next level, right associativity).

Definition queryt (name : string) : M string :=
  fun w =>
    match send name (net w) with
    | (None, n') => (Raise TransportError, World n' (files w))
    | (Some pkt, n') =>
        let w' := World n' (files w) in
        if negb (N.eqb (p_rcode pkt) 0) || (length (p_rr pkt) =? 0)
        then (Raise RuntimeError, w')
        else
          let txt := nth 0 (p_rr pkt) EmptyString in
          (Ok (Py.strip_chars (String Py.quote_char EmptyString) txt), w')
    end.

Definition parse_meta (meta : string) : gmap string string :=
  fold_left
    (fun out part =>
       match Py.split_once "=" part with
       | Some (k, v) => <[Py.strip k := Py.strip v]> out
       | None => out
       end)
    (Py.split ";" meta) ∅.

Definition sha256_hex (data : list byte) : string := Sha256.hexdigest data.

(** [int(s)], raising [ValueError]. *)
Definition to_int (s : string) : result Z :=
  match Py.int s with
  | Some z => Ok z
  | None => Raise ValueError
  end.

(** [meta[key]], raising [KeyError]. *)
Definition subscript (meta : gmap string string) (key : string)
    : result string :=
  match meta !! key with
  | Some v => Ok v
  | None => Raise KeyError
  end.

(** The three fields [fetchf] reads off the metadata, in the order it
    reads them. *)
Record fields : Type := Fields {
  chunk_count : Z;
  expected_sha : string;
  expected_bytes : Z
}.

Definition read_fields (meta : gmap string string) : result fields :=
  bind (bind (subscript meta "chunks") to_int) (fun chunk_count =>
  let expected_sha := default EmptyString (meta !! "sha256") in
  bind (to_int (default "0" (meta !! "bytes"))) (fun expected_bytes =>
  Ok (Fields chunk_count expected_sha expected_bytes))).

Definition chunk_query (i : nat) (name : string) : string :=
  "chunk" +:+ Py.str_of_nat i +:+ "." +:+ name +:+ "." +:+ ZONE.

(** The loop [for i in range(chunk_count)], from index [i] with [k]
    indices to go. *)
Fixpoint fetch_loop (name : string) (i k : nat) (chunks : list string)
    : M (list string) :=
  match k with
  | O => ret chunks
  | S k' =>
      c <- queryt (chunk_query i name) ;;
      fetch_loop name (S i) k' (chunks ++ [c])
  end.

Definition write_bytes (path : string) (data : list byte) : M unit :=
  fun w => (Ok tt, World (net w) (<[path := data]> (files w))).

Definition fetchf (name : string) (out_path : string) : M string :=
  meta_txt <- queryt ("meta." +:+ name +:+ "." +:+ ZONE) ;;
  f <- lift (read_fields (parse_meta meta_txt)) ;;
  chunks <- fetch_loop name 0 (Z.to_nat (chunk_count f)) [] ;;
  data <- lift (Base64.b64decode_str (Py.join chunks)) ;;
  if negb (Z.eqb (expected_bytes f) 0)
     && negb (Z.eqb (Z.of_nat (length data)) (expected_bytes f))
  then raise RuntimeError
  else if negb (String.eqb (expected_sha f) EmptyString)
          && negb (String.eqb (sha256_hex data) (expected_sha f))
  then raise RuntimeError
  else
    _ <- write_bytes out_path data ;;
    ret out_path.

End Fetch.

Arguments World {Net} net files.
Arguments net {Net} w.
Arguments files {Net} w.

End Client.

(** ** Client and server joined back to back

    The DNS layer between the two is reduced to what the programs rely
    on: the query name reaches the resolver as an absolute name, with its
    final dot, and a TXT record comes back rendered between quotes.

    This is what the DNS layer does for a query name whose labels hold at
    most 63 characters, all printable ASCII, and for a text with no quote
    and no backslash. Outside that domain it does other things (a longer
    label is refused before anything is sent, other characters are
    escaped), so the statements that go through the loopback are made
    for names and files inside it. *)

Module Loopback.

Definition absolute (name : string) : string :=
  if Py.endswith name "." then name else name +:+ ".".

Definition render_txt (txt : string) : string :=
  String Py.quote_char txt +:+ String Py.quote_char EmptyString.

Definition rcode_number (c : Server.rcode) : N :=
  match c with
  | Server.NOERROR => 0%N
  | Server.NXDOMAIN => 3%N
  end.

(** The state of the network is the number of queries sent so far, used
    as the identifier of the next one. *)
Definition send (store : gmap string Server.node) (name : string) (sent : N)
    : option Client.packet * N :=
  let r :=
    Server.resolve store
      (Server.Request sent
         (Server.Question (absolute name) Server.QTYPE_TXT)) in
  (Some (Client.Packet (rcode_number (Server.rep_rcode r))
           (map (fun a => render_txt (Server.rr_txt a)) (Server.rep_rr r))),
   N.succ sent).

End Loopback.

(** ** Vocabulary of the specification *)

(** [ceil(a / b)] for natural numbers, [0 < b]. *)
Definition ceil_div (a b : nat) : nat :=
  a / b + (if a mod b =? 0 then 0 else 1).

(** The query name lies in the zone of the server. *)
Definition in_zone (q : string) : bool :=
  Py.endswith (Py.lower q) Server.ZONE.

(** The dot-separated parts of the label of a query name. *)
Definition label_parts (q : string) : list string :=
  Py.split "."
    (Py.strip_chars "."
       (Py.drop_last (String.length Server.ZONE) (Py.lower q))).

(** The file name an in-zone query with a two-part label asks for. *)
Definition requested_name (q : string) : string :=
  Server.s_name (nth 1 (label_parts q) EmptyString).

(** A TXT query for the name [q], with identifier [id]. *)
Definition txt_query (id : N) (q : string) : Server.request :=
  Server.Request id (Server.Question q Server.QTYPE_TXT).

(** The negative reply to a request: status NXDOMAIN and no record. *)
Definition not_found (req : Server.request) : Server.reply :=
  Server.Reply (Server.req_id req) Server.NXDOMAIN (Server.req_q req) [].

(** The positive reply to a request: one TXT record holding [txt]. *)
Definition found (req : Server.request) (txt : string) : Server.reply :=
  Server.Reply (Server.req_id req) Server.NOERROR (Server.req_q req)
    [Server.RR (Py.lower (Server.qname (Server.req_q req)))
       Server.QTYPE_TXT Server.TTL txt].

(** A plain decimal digit string: not empty, digits only. *)
Fixpoint all_digits (s : string) : bool :=
  match s with
  | EmptyString => true
  | String c s' =>
      match Py.digit_val c with
      | Some _ => all_digits s'
      | None => false
      end
  end.

Definition plain_digits (s : string) : bool :=
  negb (String.eqb s EmptyString) && all_digits s.

(** The alphabet of sanitized names: [a-z], [0-9], [-] and [_]. *)
Definition in_alphabet (c : ascii) : bool :=
  let n := nat_of_ascii c in
  ((97 <=? n) && (n <=? 122)) || ((48 <=? n) && (n <=? 57))
  || (n =? 45) || (n =? 95).

Fixpoint all_chars (p : ascii -> bool) (s : string) : bool :=
  match s with
  | EmptyString => true
  | String c s' => p c && all_chars p s'
  end.

(** The store of the scenario: one file, [hello], holding the eleven
    bytes of [hello world]. *)
Definition hello_world : list byte :=
  String.list_byte_of_string "hello world".

Definition hello_store : gmap string Server.node :=
  {[ "hello" := Server.RegularFile hello_world ]}.

(** ** Exhaustive checks

    Facts about one or two bytes, or about one six-bit value, are settled
    by running a boolean check over all of them. *)

Definition all_bytes : list byte :=
  map (fun n => Base64.to_byte (N.of_nat n)) (seq 0 256).

Definition all_sextets : list N := map N.of_nat (seq 0 64).

(** The character of a six-bit value is not the padding, decodes to the
    value, and is ASCII. *)
Definition sextet_ok (v : N) : bool :=
  negb (Ascii.eqb (Base64.b2a v) Base64.pad)
  && match Base64.a2b (Base64.b2a v) with
     | Some v' => N.eqb v' v
     | None => false
     end
  && Base64.is_ascii (Base64.b2a v).

(** What the decoder rebuilds from the six-bit values of two neighbouring
    bytes [a] and [b] of a group. *)
Definition pair_ok (a b : byte) : bool :=
  let na := Byte.to_N a in
  let nb := Byte.to_N b in
  let v1 := Base64.sextet1 a in
  let v2 := Base64.sextet2 a b in
  let v3 := Base64.sextet3 a b in
  let v4 := Base64.sextet4 b in
  (v1 <? 64)%N && (v2 <? 64)%N && (v3 <? 64)%N && (v4 <? 64)%N
  && Byte.eqb (Base64.to_byte (N.lor (N.shiftl v1 2) (N.shiftr v2 4))) a
  && N.eqb (N.land v2 15) (N.shiftr nb 4)
  && Byte.eqb
       (Base64.to_byte (N.lor (N.shiftl (N.shiftr na 4) 4) (N.shiftr v3 2))) a
  && N.eqb (N.land v3 3) (N.shiftr nb 6)
  && Byte.eqb (Base64.to_byte (N.lor (N.shiftl (N.shiftr nb 6) 6) v4)) b.

(** ** Further vocabulary *)

(** No character of [s] occurs in [cs]. *)
Definition none_of (cs s : string) : bool :=
  all_chars (fun c => negb (Py.mem_char c cs)) s.

Definition is_digit (c : ascii) : bool :=
  match Py.digit_val c with
  | Some _ => true
  | None => false
  end.

(** A lowercase hexadecimal digit. *)
Definition is_hex (c : ascii) : bool := Py.mem_char c "0123456789abcdef".

(** Settles a fact about every character by running through the 256 of
    them. *)
Ltac by_all_chars :=
  let c := fresh "c" in
  intros c; destruct c as [[] [] [] [] [] [] [] []];
  try reflexivity; discriminate.

(** [s] is not empty and its first character is not in [cs]. *)
Definition clean_head (cs s : string) : bool :=
  match s with
  | EmptyString => false
  | String c _ => negb (Py.mem_char c cs)
  end.

(** A character of the base64 alphabet, or the padding. *)
Definition is_b64 (c : ascii) : bool :=
  Py.mem_char c
    "ABCDEFGHIJKLMNOPQRSTUVWXYZabcdefghijklmnopqrstuvwxyz0123456789+/=".

(** A name that sanitizing leaves as it is, and that is not empty. *)
Definition sanitized (name : string) : bool :=
  negb (String.eqb name EmptyString)
  && all_chars (fun c => Py.mem_char c Server.ok) name.

(** The characters [queryt] strips from an answer. *)
Definition quote : string := String Py.quote_char EmptyString.

(** The name under which the client asks for a part [p0] of the file
    [name], as it reaches the resolver. *)
Definition wire_name (p0 name : string) : string :=
  Loopback.absolute (p0 +:+ "." +:+ name +:+ "." +:+ Client.ZONE).

(** A transport that also keeps the trace of the exchanges: the query
    names it was given, in the order it was given them, each with the
    answer it gave. *)
Definition traced {Net : Type}
    (send : string -> Net -> option Client.packet * Net)
    (q : string) (st : Net * list (string * option Client.packet))
    : option Client.packet * (Net * list (string * option Client.packet)) :=
  (fst (send q (fst st)),
   (snd (send q (fst st)), snd st ++ [(q, fst (send q (fst st)))])).

(** The answers [queryt] takes for good: status zero and at least one
    record. *)
Definition answered (p : option Client.packet) : bool :=
  match p with
  | Some pkt =>
      N.eqb (Client.p_rcode pkt) 0 && negb (length (Client.p_rr pkt) =? 0)
  | None => false
  end.

(** The entry [e] of the store directory is a regular file holding
    [content]. *)
Definition regular (store : gmap string Server.node) (e : string)
    (content : list byte) : Prop :=
  e <> EmptyString /\ store !! e = Some (Server.RegularFile content).

(** The path [STORE_DIR / e] is no regular file: it is the store
    directory itself, or there is no such entry, or the entry is a
    directory. *)
Definition no_file (store : gmap string Server.node) (e : string) : Prop :=
  e = EmptyString \/ store !! e = None \/ store !! e = Some Server.Directory.

(** A store with a directory [data] and a file [data.txt]. *)
Definition mixed_store : gmap string Server.node :=
  {[ "data" := Server.Directory;
     "data.txt" := Server.RegularFile (String.list_byte_of_string "abc") ]}.

(** The label of a query name: what is left of the lowercased name once
    the zone and the dots around are taken away. *)
Definition label_of (q : string) : string :=
  Py.strip_chars "."
    (Py.drop_last (String.length Server.ZONE) (Py.lower q)).

(** * Properties *)

(** ** Strings and ranges *)

Section StringFacts.

Lemma append_empty_l (t : string) : EmptyString +:+ t = t.
Proof. reflexivity. Qed.

Lemma append_cons (c : ascii) (s t : string) :
  String c s +:+ t = String c (s +:+ t).
Proof. reflexivity. Qed.

Lemma append_empty_r (s : string) : s +:+ EmptyString = s.
Proof.
  induction s as [|c s IH]; [reflexivity |].
  now rewrite append_cons, IH.
Qed.

Lemma length_append (s t : string) :
  String.length (s +:+ t) = String.length s + String.length t.
Proof.
  induction s as [|c s IH]; [reflexivity |].
  rewrite append_cons. simpl. now rewrite IH.
Qed.

Lemma drop_all (s : string) (n : nat) :
  String.length s <= n -> Py.drop n s = EmptyString.
Proof.
  revert n. induction s as [|c s IH]; intros [|n] H; simpl in *;
    try reflexivity; try lia.
  apply IH. lia.
Qed.

Lemma substring_then_drop (s : string) (i n : nat) :
  String.substring i n s +:+ Py.drop (i + n) s = Py.drop i s.
Proof.
  revert i n. induction s as [|c s IH]; intros [|i] [|n]; simpl;
    rewrite ?append_cons, ?append_empty_l; try reflexivity.
  - f_equal. apply (IH 0 n).
  - apply (IH i 0).
  - apply (IH i (S n)).
Qed.

Lemma length_substring (s : string) (i n : nat) :
  String.length (String.substring i n s) = Nat.min n (String.length s - i).
Proof.
  revert i n. induction s as [|c s IH]; intros [|i] [|n]; simpl;
    try reflexivity.
  - now rewrite (IH 0 n), Nat.sub_0_r.
  - now rewrite (IH i 0).
  - apply (IH i (S n)).
Qed.

Lemma slice_width (s : string) (i w : nat) :
  Py.slice s i (i + w) = String.substring i w s.
Proof. unfold Py.slice. f_equal. lia. Qed.

End StringFacts.

(** ** Ranges and the partition into chunks *)

Section RangeFacts.

Variables stop step : nat.
Hypothesis step_pos : 0 < step.

Lemma ceil_div_zero : ceil_div 0 step = 0.
Proof.
  unfold ceil_div. rewrite Nat.Div0.div_0_l, Nat.Div0.mod_0_l. reflexivity.
Qed.

Lemma ceil_div_step (x : nat) :
  0 < x -> ceil_div x step = S (ceil_div (x - step) step).
Proof.
  intros Hx. unfold ceil_div.
  destruct (Nat.lt_ge_cases x step) as [Hlt | Hge].
  - replace (x - step) with 0 by lia.
    rewrite Nat.Div0.div_0_l, Nat.Div0.mod_0_l.
    rewrite (Nat.div_small x step), (Nat.mod_small x step) by lia.
    destruct (Nat.eqb_spec x 0); [lia | reflexivity].
  - replace x with ((x - step) + 1 * step) at 1 2 by lia.
    rewrite Nat.div_add, Nat.Div0.mod_add by lia. lia.
Qed.

Lemma length_range_from (fuel start : nat) :
  stop - start <= fuel ->
  length (Py.range_from fuel start stop step) = ceil_div (stop - start) step.
Proof.
  revert start. induction fuel as [|fuel IH]; intros start Hfuel; simpl.
  - replace (stop - start) with 0 by lia. now rewrite ceil_div_zero.
  - destruct (Nat.ltb_spec start stop) as [Hlt | Hge]; simpl.
    + rewrite IH by lia. rewrite (ceil_div_step (stop - start)) by lia.
      do 2 f_equal. lia.
    + replace (stop - start) with 0 by lia. now rewrite ceil_div_zero.
Qed.

(** Every index the loop emits is below [stop] and is [start] plus a
    multiple of [step]. *)
Lemma range_from_members (fuel start : nat) :
  Forall (fun i => i < stop /\ exists k, i = start + k * step)
         (Py.range_from fuel start stop step).
Proof.
  revert start. induction fuel as [|fuel IH]; intros start; simpl.
  - constructor.
  - destruct (Nat.ltb_spec start stop) as [Hlt | Hge]; [| constructor].
    constructor.
    + split; [exact Hlt | exists 0; lia].
    + eapply List.Forall_impl; [| apply IH].
      intros i [Hi [k Hk]]. split; [exact Hi | exists (S k); lia].
Qed.

(** The slices taken at the indices of the loop, joined in order, give
    back the text from [start] on. *)
Lemma join_slices (s : string) (fuel start : nat) :
  stop = String.length s ->
  stop - start <= fuel ->
  Py.join (map (fun i => Py.slice s i (i + step))
               (Py.range_from fuel start stop step))
  = Py.drop start s.
Proof.
  intros Hstop. revert start.
  induction fuel as [|fuel IH]; intros start Hfuel; simpl.
  - symmetry. apply drop_all. lia.
  - destruct (Nat.ltb_spec start stop) as [Hlt | Hge]; simpl.
    + rewrite IH by lia. rewrite slice_width. apply substring_then_drop.
    + symmetry. apply drop_all. lia.
Qed.

End RangeFacts.

(** ** Base64 *)

Section Base64Facts.

Import Base64.

Lemma all_bytes_complete (b : byte) : In b all_bytes.
Proof.
  unfold all_bytes. apply in_map_iff. exists (Byte.to_nat b). split.
  - unfold to_byte. rewrite <- Byte.to_N_via_nat.
    pose proof (Byte.to_N_bounded b) as Hb.
    rewrite N.mod_small by lia. now rewrite Byte.of_to_N.
  - apply in_seq. pose proof (Byte.to_nat_bounded b). lia.
Qed.

Lemma all_sextets_complete (v : N) : (v < 64)%N -> In v all_sextets.
Proof.
  intros Hv. unfold all_sextets. apply in_map_iff.
  exists (N.to_nat v). split; [apply N2Nat.id | apply in_seq; lia].
Qed.

Lemma sextets_checked : forallb sextet_ok all_sextets = true.
Proof. vm_compute. reflexivity. Qed.

Lemma pairs_checked :
  forallb (fun a => forallb (pair_ok a) all_bytes) all_bytes = true.
Proof. vm_compute. reflexivity. Qed.

Lemma sextet_char (v : N) :
  (v < 64)%N ->
  Ascii.eqb (b2a v) pad = false /\ a2b (b2a v) = Some v
  /\ is_ascii (b2a v) = true.
Proof.
  intros Hv. pose proof sextets_checked as H.
  rewrite forallb_forall in H. specialize (H v (all_sextets_complete v Hv)).
  unfold sextet_ok in H.
  apply andb_prop in H as [H Hascii]. apply andb_prop in H as [Hpad Hdec].
  repeat split.
  - now apply negb_true_iff.
  - destruct (a2b (b2a v)) as [v'|]; [| discriminate].
    apply N.eqb_eq in Hdec. now subst.
  - exact Hascii.
Qed.

Lemma pair_facts (a b : byte) : pair_ok a b = true.
Proof.
  pose proof pairs_checked as H. rewrite forallb_forall in H.
  specialize (H a (all_bytes_complete a)). rewrite forallb_forall in H.
  exact (H b (all_bytes_complete b)).
Qed.

Lemma byte_eqb_eq (a b : byte) : Byte.eqb a b = true -> a = b.
Proof. apply Byte.byte_dec_bl. Qed.

(** The facts of [pair_ok], one by one. *)
Lemma pair_split (a b : byte) :
  ((sextet1 a < 64)%N /\ (sextet2 a b < 64)%N
   /\ (sextet3 a b < 64)%N /\ (sextet4 b < 64)%N)
  /\ to_byte (N.lor (N.shiftl (sextet1 a) 2) (N.shiftr (sextet2 a b) 4)) = a
  /\ N.land (sextet2 a b) 15 = N.shiftr (Byte.to_N b) 4
  /\ to_byte (N.lor (N.shiftl (N.shiftr (Byte.to_N a) 4) 4)
                    (N.shiftr (sextet3 a b) 2)) = a
  /\ N.land (sextet3 a b) 3 = N.shiftr (Byte.to_N b) 6
  /\ to_byte (N.lor (N.shiftl (N.shiftr (Byte.to_N b) 6) 6) (sextet4 b)) = b.
Proof.
  pose proof (pair_facts a b) as H. unfold pair_ok in H. cbv zeta in H.
  repeat (apply andb_prop in H; destruct H as [H ?]).
  repeat match goal with
         | E : (_ <? _)%N = true |- _ => apply N.ltb_lt in E
         | E : N.eqb _ _ = true |- _ => apply N.eqb_eq in E
         | E : Byte.eqb _ _ = true |- _ => apply byte_eqb_eq in E
         end.
  repeat split; assumption.
Qed.

(** One step of the decoder on the character of a six-bit value. *)
Lemma a2b_loop_sextet (v : N) (s : string) (quad_pos : nat) (leftchar : N)
    (pads : nat) (acc : list byte) :
  (v < 64)%N ->
  a2b_loop (String (b2a v) s) quad_pos leftchar pads acc =
  match quad_pos with
  | 0 => a2b_loop s 1 v 0 acc
  | 1 =>
      a2b_loop s 2 (N.land v 15) 0
        (to_byte (N.lor (N.shiftl leftchar 2) (N.shiftr v 4)) :: acc)
  | 2 =>
      a2b_loop s 3 (N.land v 3) 0
        (to_byte (N.lor (N.shiftl leftchar 4) (N.shiftr v 2)) :: acc)
  | _ =>
      a2b_loop s 0 0%N 0
        (to_byte (N.lor (N.shiftl leftchar 6) v) :: acc)
  end.
Proof.
  intros Hv. destruct (sextet_char v Hv) as (Hpad & Hdec & _).
  simpl. rewrite Hpad, Hdec. reflexivity.
Qed.

(** Induction over a byte sequence three bytes at a time. *)
Lemma bytes_ind3 (P : list byte -> Prop) :
  P [] ->
  (forall a, P [a]) ->
  (forall a b, P [a; b]) ->
  (forall a b c rest, P rest -> P (a :: b :: c :: rest)) ->
  forall data, P data.
Proof.
  intros H0 H1 H2 H3 data.
  enough (P data /\ (forall a, P (a :: data))
          /\ (forall a b, P (a :: b :: data))) by tauto.
  induction data as [|c data (IHa & IHb & IHc)]; auto.
Qed.

Lemma a2b_loop_encode (data acc : list byte) :
  a2b_loop (b64encode data) 0 0%N 0 acc = Ok (rev acc ++ data).
Proof.
  revert acc. induction data as [| a | a b | a b c rest IH] using bytes_ind3;
    intros acc.
  - simpl. now rewrite app_nil_r.
  - destruct (pair_split a x00) as ((H1 & H2 & _) & Ha & _).
    cbn [b64encode]. rewrite !a2b_loop_sextet by assumption.
    rewrite Ha. simpl. now rewrite <- ?app_assoc.
  - destruct (pair_split a b) as ((H1 & H2 & _) & Ha & Hl & _).
    destruct (pair_split b x00) as ((_ & _ & H3 & _) & _ & _ & Hb & _).
    cbn [b64encode]. rewrite !a2b_loop_sextet by assumption.
    rewrite Ha, Hl, Hb. simpl. now rewrite <- ?app_assoc.
  - destruct (pair_split a b) as ((H1 & H2 & _) & Ha & Hl & _).
    destruct (pair_split b c) as ((_ & _ & H3 & H4) & _ & _ & Hb & Hl' & Hc).
    cbn [b64encode]. rewrite !a2b_loop_sextet by assumption.
    rewrite Ha, Hl, Hb, Hl', Hc, IH. simpl. now rewrite <- ?app_assoc.
Qed.

Lemma all_ascii_encode (data : list byte) : all_ascii (b64encode data) = true.
Proof.
  induction data as [| a | a b | a b c rest IH] using bytes_ind3.
  - reflexivity.
  - destruct (pair_split a x00) as ((H1 & H2 & _) & _).
    cbn [b64encode all_ascii].
    now rewrite (proj2 (proj2 (sextet_char _ H1))),
                (proj2 (proj2 (sextet_char _ H2))).
  - destruct (pair_split a b) as ((H1 & H2 & _) & _).
    destruct (pair_split b x00) as ((_ & _ & H3 & _) & _).
    cbn [b64encode all_ascii].
    now rewrite (proj2 (proj2 (sextet_char _ H1))),
                (proj2 (proj2 (sextet_char _ H2))),
                (proj2 (proj2 (sextet_char _ H3))).
  - destruct (pair_split a b) as ((H1 & H2 & _) & _).
    destruct (pair_split b c) as ((_ & _ & H3 & H4) & _).
    cbn [b64encode all_ascii].
    now rewrite (proj2 (proj2 (sextet_char _ H1))),
                (proj2 (proj2 (sextet_char _ H2))),
                (proj2 (proj2 (sextet_char _ H3))),
                (proj2 (proj2 (sextet_char _ H4))), IH.
Qed.

Lemma b64decode_encode (data : list byte) :
  b64decode_str (b64encode data) = Ok data.
Proof.
  unfold b64decode_str, a2b_base64.
  now rewrite all_ascii_encode, a2b_loop_encode.
Qed.

End Base64Facts.

(** ** The chunk sequence of a file *)

Section ChunkFacts.

Variable data : list byte.

Lemma join_b64_chunks :
  Py.join (Server.b64_chunks data) = Base64.b64encode data.
Proof.
  unfold Server.b64_chunks, Py.range.
  assert (0 < Server.CHUNK_CHARS) as Hpos by (unfold Server.CHUNK_CHARS; lia).
  now rewrite (join_slices _ _ Hpos) by (reflexivity || lia).
Qed.

Lemma length_b64_chunks :
  length (Server.b64_chunks data)
  = ceil_div (String.length (Base64.b64encode data)) Server.CHUNK_CHARS.
Proof.
  assert (0 < Server.CHUNK_CHARS) as Hpos by (unfold Server.CHUNK_CHARS; lia).
  unfold Server.b64_chunks, Py.range. rewrite length_map.
  rewrite (length_range_from _ _ Hpos) by lia.
  now rewrite Nat.sub_0_r.
Qed.

(** Every chunk holds between one and [CHUNK_CHARS] characters, and
    exactly [CHUNK_CHARS] when that width divides the length of the
    encoding. *)
Lemma b64_chunks_widths :
  Forall (fun c =>
            0 < String.length c <= Server.CHUNK_CHARS
            /\ (String.length (Base64.b64encode data)
                  mod Server.CHUNK_CHARS = 0 ->
                String.length c = Server.CHUNK_CHARS))
         (Server.b64_chunks data).
Proof.
  assert (0 < Server.CHUNK_CHARS) as Hpos by (unfold Server.CHUNK_CHARS; lia).
  unfold Server.b64_chunks, Py.range. cbv zeta.
  apply List.Forall_map.
  eapply List.Forall_impl; [| apply (range_from_members _ _ Hpos)].
  intros i [Hi [k Hk]]. cbv beta.
  rewrite slice_width, length_substring.
  revert Hpos Hk. generalize Server.CHUNK_CHARS. intros w Hpos Hk.
  split; [lia |]. intros Hmod.
  apply Nat.Div0.mod_divides in Hmod as [q Hq].
  assert (k < q) as Hkq by nia.
  assert (w * (k + 1) <= w * q) as Hle by (apply Nat.mul_le_mono_l; lia).
  lia.
Qed.

End ChunkFacts.

(** C1. Joining the chunks of a byte sequence in ascending order and
    decoding the result as base64 gives back the byte sequence; this holds
    for every byte sequence, the empty one and those spanning several
    chunks included. *)
Theorem chunks_roundtrip (b : list byte) :
  Base64.b64decode_str (Py.join (Server.b64_chunks b)) = Ok b.
Proof. rewrite join_b64_chunks. apply b64decode_encode. Qed.

(** C5. The number of chunks is the length of the base64 text divided by
    the width 180, rounded up; the empty byte sequence has no chunk; and
    when 180 divides the length of the base64 text the last chunk holds
    exactly 180 characters. No chunk is ever empty. *)
Theorem chunk_count_exact (b : list byte) :
  let n := String.length (Base64.b64encode b) in
  Server.CHUNK_CHARS = 180
  /\ length (Server.b64_chunks b) = ceil_div n 180
  /\ Server.b64_chunks [] = []
  /\ (n mod 180 = 0 ->
      forall c, last (Server.b64_chunks b) = Some c -> String.length c = 180)
  /\ Forall (fun c => c <> EmptyString) (Server.b64_chunks b).
Proof.
  intros n. pose proof (b64_chunks_widths b) as Hw.
  split; [reflexivity |]. split; [apply length_b64_chunks |].
  split; [reflexivity |]. split.
  - intros Hmod c Hlast. apply last_Some in Hlast as [l' Hl'].
    rewrite Hl' in Hw. apply Forall_app in Hw as [_ Hc].
    apply Forall_inv in Hc. now apply Hc.
  - eapply List.Forall_impl; [| exact Hw].
    intros c [[Hpos _] _] ->. simpl in Hpos. lia.
Qed.

(** A file of 135 bytes has a base64 text of exactly 180 characters: one
    chunk, of full width. *)
Lemma chunk_count_exact_witness :
  String.length (Base64.b64encode (repeat x00 135)) mod 180 = 0
  /\ forall c, last (Server.b64_chunks (repeat x00 135)) = Some c ->
               String.length c = 180.
Proof.
  split; [vm_compute; reflexivity |].
  apply (chunk_count_exact (repeat x00 135)). vm_compute. reflexivity.
Defined.

(** ** Sanitized names *)

Section NameFacts.

Lemma ok_alphabet (c : ascii) :
  Py.mem_char c Server.ok = true -> in_alphabet c = true.
Proof.
  unfold Server.ok. simpl. intros H.
  repeat match type of H with
         | context [Ascii.eqb c ?d] =>
             destruct (Ascii.eqb_spec c d) as [E | _];
             [rewrite E; reflexivity | simpl in H]
         end.
  discriminate.
Qed.

Lemma ok_not_upper (c : ascii) :
  Py.mem_char c Server.ok = true -> Py.lower_char c = c.
Proof.
  unfold Server.ok. simpl. intros H.
  repeat match type of H with
         | context [Ascii.eqb c ?d] =>
             destruct (Ascii.eqb_spec c d) as [E | _];
             [rewrite E; reflexivity | simpl in H]
         end.
  discriminate.
Qed.

Lemma keep_ok_all (s : string) :
  all_chars (fun c => Py.mem_char c Server.ok) (Server.keep_ok s) = true.
Proof.
  induction s as [|c s IH]; [reflexivity |].
  cbn [Server.keep_ok].
  destruct (Py.mem_char c Server.ok) eqn:Hc; [| exact IH].
  cbn [all_chars]. now rewrite Hc, IH.
Qed.

Lemma lower_fixed (s : string) :
  all_chars (fun c => Py.mem_char c Server.ok) s = true -> Py.lower s = s.
Proof.
  induction s as [|c s IH]; [reflexivity |].
  cbn [all_chars Py.lower]. intros [Hc Hs]%andb_prop.
  now rewrite (ok_not_upper c Hc), IH.
Qed.

Lemma keep_ok_fixed (s : string) :
  all_chars (fun c => Py.mem_char c Server.ok) s = true ->
  Server.keep_ok s = s.
Proof.
  induction s as [|c s IH]; [reflexivity |].
  cbn [all_chars Server.keep_ok]. intros [Hc Hs]%andb_prop.
  now rewrite Hc, IH.
Qed.

Lemma all_chars_impl (p q : ascii -> bool) (s : string) :
  (forall c, p c = true -> q c = true) ->
  all_chars p s = true -> all_chars q s = true.
Proof.
  intros Hpq. induction s as [|c s IH]; [reflexivity |].
  cbn [all_chars]. intros [Hc Hs]%andb_prop.
  now rewrite (Hpq c Hc), IH.
Qed.

End NameFacts.

(** C9. Sanitizing a name is total, leaves only characters of the alphabet
    [a-z], [0-9], [-], [_], and sanitizing a second time changes nothing. *)
Theorem s_name_idempotent (s : string) :
  (exists name, Server.s_name s = name)
  /\ all_chars in_alphabet (Server.s_name s) = true
  /\ Server.s_name (Server.s_name s) = Server.s_name s.
Proof.
  pose proof (keep_ok_all (Py.lower s)) as Hall. fold (Server.s_name s) in Hall.
  split; [eauto |]. split.
  - exact (all_chars_impl _ _ _ ok_alphabet Hall).
  - unfold Server.s_name at 1.
    now rewrite (lower_fixed _ Hall), (keep_ok_fixed _ Hall).
Qed.

(** ** The resolver *)

Section ResolverFacts.

Variable store : gmap string Server.node.

Lemma split_singleton_empty (sep : ascii) (p0 p1 : string) :
  Py.split sep EmptyString <> [p0; p1].
Proof. discriminate. Qed.

(** What the resolver does with an in-zone TXT query whose label has
    exactly two parts. *)
Lemma resolve_two_parts (id : N) (q p0 p1 : string) :
  in_zone q = true ->
  label_parts q = [p0; p1] ->
  Server.resolve store (txt_query id q) =
  let req := txt_query id q in
  if String.eqb p0 "meta" then
    match Server.f_bytes store (Server.s_name p1) with
    | None => not_found req
    | Some data => found req (Server.meta_text data)
    end
  else if Py.startswith p0 "chunk" then
    match Py.int (Py.drop 5 p0) with
    | None => not_found req
    | Some idx =>
        match Server.f_bytes store (Server.s_name p1) with
        | None => not_found req
        | Some data =>
            if (idx <? 0)%Z
               || (Z.of_nat (length (Server.b64_chunks data)) <=? idx)%Z
            then not_found req
            else found req
                   (nth (Z.to_nat idx) (Server.b64_chunks data) EmptyString)
        end
    end
  else not_found req.
Proof.
  unfold in_zone, label_parts. intros Hzone Hparts.
  unfold Server.resolve, txt_query.
  cbn [Server.req_q Server.req_id Server.qname Server.qtype].
  rewrite Hzone, N.eqb_refl. cbn [negb].
  destruct (String.eqb_spec
              (Py.strip_chars "."
                 (Py.drop_last (String.length Server.ZONE) (Py.lower q)))
              EmptyString) as [Hempty | _].
  { rewrite Hempty in Hparts. discriminate Hparts. }
  rewrite Hparts. cbn [length Nat.eqb nth andb].
  destruct (String.eqb p0 "meta").
  - destruct (Server.f_bytes store (Server.s_name p1)); reflexivity.
  - destruct (Py.startswith p0 "chunk"); [| reflexivity].
    destruct (Py.int (Py.drop 5 p0)) as [idx |]; [| reflexivity].
    destruct (Server.f_bytes store (Server.s_name p1)); [| reflexivity].
    destruct ((idx <? 0)%Z || _); reflexivity.
Qed.

(** The reply depends on the store only through the lookup of the
    requested name. *)
Lemma resolve_store_local (store' : gmap string Server.node)
    (req : Server.request) :
  Server.f_bytes store (requested_name (Server.qname (Server.req_q req)))
  = Server.f_bytes store' (requested_name (Server.qname (Server.req_q req))) ->
  Server.resolve store req = Server.resolve store' req.
Proof.
  unfold requested_name, label_parts, Server.resolve. intros Hsame.
  destruct (negb (Py.endswith _ _)); [reflexivity |].
  destruct (negb (N.eqb _ _)); [reflexivity |].
  destruct (String.eqb _ EmptyString); [reflexivity |].
  rewrite Hsame. reflexivity.
Qed.

Lemma chunk_is_not_meta (p0 : string) :
  Py.startswith p0 "chunk" = true -> String.eqb p0 "meta" = false.
Proof.
  destruct p0 as [|c p0]; [discriminate |].
  unfold Py.startswith. cbn [String.prefix String.eqb].
  destruct (ascii_dec "c" c) as [<- | _]; [reflexivity | discriminate].
Qed.

(** The chunk handler, once the label is known to start with
    [chunk]. *)
Lemma resolve_chunk (id : N) (q p0 p1 : string) :
  in_zone q = true ->
  label_parts q = [p0; p1] ->
  Py.startswith p0 "chunk" = true ->
  Server.resolve store (txt_query id q) =
  let req := txt_query id q in
  match Py.int (Py.drop 5 p0) with
  | None => not_found req
  | Some idx =>
      match Server.f_bytes store (Server.s_name p1) with
      | None => not_found req
      | Some data =>
          if (idx <? 0)%Z
             || (Z.of_nat (length (Server.b64_chunks data)) <=? idx)%Z
          then not_found req
          else found req
                 (nth (Z.to_nat idx) (Server.b64_chunks data) EmptyString)
      end
  end.
Proof.
  intros Hzone Hparts Hchunk.
  rewrite (resolve_two_parts id q p0 p1 Hzone Hparts).
  cbv zeta. now rewrite (chunk_is_not_meta p0 Hchunk), Hchunk.
Qed.

End ResolverFacts.

(** C3, as amended. On an in-zone TXT query whose label has two parts, the
    first being [chunk] followed by [X], the reply is the negative one,
    with no record, whenever [int] rejects [X] (the empty string
    included) and whenever [X] denotes a negative number. *)
Theorem chunk_index_rejected (store : gmap string Server.node) (id : N)
    (q p0 p1 : string) :
  in_zone q = true ->
  label_parts q = [p0; p1] ->
  Py.startswith p0 "chunk" = true ->
  let X := Py.drop 5 p0 in
  let r := Server.resolve store (txt_query id q) in
  (Py.int X = None -> r = not_found (txt_query id q))
  /\ (X = EmptyString -> r = not_found (txt_query id q))
  /\ (forall z, Py.int X = Some z -> (z < 0)%Z ->
      r = not_found (txt_query id q)).
Proof.
  intros Hzone Hparts Hchunk X r.
  assert (Py.int X = None -> r = not_found (txt_query id q)) as Hnone.
  { intros HX. subst r X.
    rewrite (resolve_chunk store id q p0 p1 Hzone Hparts Hchunk).
    cbv zeta. now rewrite HX. }
  split; [exact Hnone |]. split.
  - intros HX. apply Hnone. now rewrite HX.
  - intros z HX Hneg. subst r X.
    rewrite (resolve_chunk store id q p0 p1 Hzone Hparts Hchunk).
    cbv zeta. rewrite HX.
    destruct (Server.f_bytes store (Server.s_name p1)); [| reflexivity].
    now rewrite (proj2 (Z.ltb_lt z 0) Hneg).
Qed.

Lemma chunk_index_rejected_witness :
  Server.resolve hello_store (txt_query 1 "chunk-1.hello.lab.")
  = not_found (txt_query 1 "chunk-1.hello.lab.").
Proof.
  refine (proj2 (proj2 (chunk_index_rejected hello_store 1
            "chunk-1.hello.lab." "chunk-1" "hello" _ _ _)) (-1)%Z _ _);
    vm_compute; reflexivity.
Defined.

(** The claim C3 as stated fails: [-0] is not a plain digit string, yet
    the query for [chunk-0.hello.lab.] is answered with chunk 0. The same
    goes for [+0] and [0_0]. *)
Lemma chunk_sign_accepted :
  in_zone "chunk-0.hello.lab." = true
  /\ label_parts "chunk-0.hello.lab." = ["chunk-0"; "hello"]
  /\ Py.drop 5 "chunk-0" = "-0"
  /\ plain_digits "-0" = false
  /\ Server.resolve hello_store (txt_query 1 "chunk-0.hello.lab.")
     = found (txt_query 1 "chunk-0.hello.lab.") "aGVsbG8gd29ybGQ="
  /\ plain_digits "+0" = false
  /\ Server.resolve hello_store (txt_query 1 "chunk+0.hello.lab.")
     = found (txt_query 1 "chunk+0.hello.lab.") "aGVsbG8gd29ybGQ="
  /\ plain_digits "0_0" = false
  /\ Server.resolve hello_store (txt_query 1 "chunk0_0.hello.lab.")
     = found (txt_query 1 "chunk0_0.hello.lab.") "aGVsbG8gd29ybGQ=".
Proof. vm_compute. repeat split. Qed.

Lemma read_file_regular (store : gmap string Server.node) (e : string)
    (content : list byte) :
  Server.read_file store e = Some content <-> regular store e content.
Proof.
  unfold Server.read_file, regular. destruct e as [|c e].
  - split; [discriminate | now intros [? _]].
  - destruct (store !! String c e) as [[content' |] |].
    + split; [intros [= ->]; now split | now intros [_ [= ->]]].
    + split; [discriminate | now intros [_ ?]].
    + split; [discriminate | now intros [_ ?]].
Qed.

Lemma read_file_no_file (store : gmap string Server.node) (e : string) :
  Server.read_file store e = None <-> no_file store e.
Proof.
  unfold Server.read_file, no_file. destruct e as [|c e].
  - split; [now left | reflexivity].
  - destruct (store !! String c e) as [[content' |] |].
    + split; [discriminate | now intros [? | [? | ?]]].
    + split; [now right; right | reflexivity].
    + split; [now right; left | reflexivity].
Qed.

(** C6. The lookup goes through the entries [n], [n.bin], [n.txt] of the
    store directory in that order and gives the bytes of the first that
    is a regular file, passing over missing entries and directories; it
    gives nothing else. When none of the three is a regular file the
    lookup fails, and the meta handler and the chunk handler both answer
    with the negative reply. *)
Theorem f_bytes_candidates (store : gmap string Server.node) (n : string) :
  (forall content, regular store n content ->
     Server.f_bytes store n = Some content)
  /\ (forall content,
        no_file store n -> regular store (n +:+ ".bin") content ->
        Server.f_bytes store n = Some content)
  /\ (forall content,
        no_file store n -> no_file store (n +:+ ".bin") ->
        regular store (n +:+ ".txt") content ->
        Server.f_bytes store n = Some content)
  /\ (forall content, Server.f_bytes store n = Some content ->
        regular store n content
        \/ (no_file store n /\ regular store (n +:+ ".bin") content)
        \/ (no_file store n /\ no_file store (n +:+ ".bin")
            /\ regular store (n +:+ ".txt") content))
  /\ (no_file store n -> no_file store (n +:+ ".bin") ->
      no_file store (n +:+ ".txt") ->
      Server.f_bytes store n = None
      /\ forall id q p0 p1,
          in_zone q = true ->
          label_parts q = [p0; p1] ->
          Server.s_name p1 = n ->
          p0 = "meta" \/ Py.startswith p0 "chunk" = true ->
          Server.resolve store (txt_query id q) = not_found (txt_query id q)).
Proof.
  assert (Server.f_bytes store n =
          match Server.read_file store n with
          | Some content => Some content
          | None =>
              match Server.read_file store (n +:+ ".bin") with
              | Some content => Some content
              | None => Server.read_file store (n +:+ ".txt")
              end
          end) as Horder.
  { unfold Server.f_bytes, Server.candidates. cbn [Server.first_file].
    destruct (Server.read_file store n); [reflexivity |].
    destruct (Server.read_file store (n +:+ ".bin")); [reflexivity |].
    now destruct (Server.read_file store (n +:+ ".txt")). }
  split; [| split; [| split; [| split]]].
  - intros content H1%read_file_regular. now rewrite Horder, H1.
  - intros content H1%read_file_no_file H2%read_file_regular.
    now rewrite Horder, H1, H2.
  - intros content H1%read_file_no_file H2%read_file_no_file
      H3%read_file_regular.
    now rewrite Horder, H1, H2, H3.
  - intros content. rewrite Horder.
    destruct (Server.read_file store n) as [c1 |] eqn:H1.
    { intros [= ->]. left. now apply read_file_regular. }
    apply read_file_no_file in H1.
    destruct (Server.read_file store (n +:+ ".bin")) as [c2 |] eqn:H2.
    { intros [= ->]. right; left. split; [exact H1 |].
      now apply read_file_regular. }
    apply read_file_no_file in H2.
    intros H3%read_file_regular. right; right. auto.
  - intros H1%read_file_no_file H2%read_file_no_file H3%read_file_no_file.
    assert (Server.f_bytes store n = None) as Hnone
      by now rewrite Horder, H1, H2, H3.
    split; [exact Hnone |].
    intros id q p0 p1 Hzone Hparts Hname Hroute.
    rewrite (resolve_two_parts store id q p0 p1 Hzone Hparts). cbv zeta.
    rewrite Hname, Hnone.
    destruct Hroute as [-> | Hchunk].
    + reflexivity.
    + rewrite (chunk_is_not_meta p0 Hchunk), Hchunk.
      now destruct (Py.int (Py.drop 5 p0)).
Qed.

(** In a store where [data] is a directory and [data.bin] is missing, the
    lookup of [data] passes over both and gives the bytes of [data.txt];
    in the store of the scenario there is nothing for the name [nothing],
    so the lookup fails and the meta query is refused. *)
Lemma f_bytes_candidates_witness :
  Server.f_bytes mixed_store "data"
  = Some (String.list_byte_of_string "abc")
  /\ Server.f_bytes hello_store "nothing" = None
  /\ Server.resolve hello_store (txt_query 1 "meta.nothing.lab.")
     = not_found (txt_query 1 "meta.nothing.lab.").
Proof.
  split.
  - apply (proj1 (proj2 (proj2 (f_bytes_candidates mixed_store "data")))).
    + right; right. reflexivity.
    + right; left. reflexivity.
    + split; [discriminate | reflexivity].
  - destruct (proj2 (proj2 (proj2 (proj2
                (f_bytes_candidates hello_store "nothing")))))
      as [Hnone Hreply]; try (right; left; reflexivity).
    split; [exact Hnone |].
    apply (Hreply 1%N "meta.nothing.lab." "meta" "nothing");
      try (vm_compute; reflexivity).
    now left.
Defined.

(** C7. For a stored file with content [b] and a parsed index [idx], the
    chunk handler answers with the negative reply when [idx] is at or
    beyond the number of chunks (so always when [b] is empty), and with
    the chunk at [idx] when [idx] is within range. *)
Theorem chunk_handler_range (store : gmap string Server.node) (id : N)
    (q p0 p1 : string) (idx : Z) (b : list byte) :
  in_zone q = true ->
  label_parts q = [p0; p1] ->
  Py.startswith p0 "chunk" = true ->
  Py.int (Py.drop 5 p0) = Some idx ->
  Server.f_bytes store (Server.s_name p1) = Some b ->
  let chunks := Server.b64_chunks b in
  let r := Server.resolve store (txt_query id q) in
  ((Z.of_nat (length chunks) <= idx)%Z -> r = not_found (txt_query id q))
  /\ (b = [] -> r = not_found (txt_query id q))
  /\ ((0 <= idx < Z.of_nat (length chunks))%Z ->
      exists c, chunks !! Z.to_nat idx = Some c
                /\ r = found (txt_query id q) c).
Proof.
  intros Hzone Hparts Hchunk Hidx Hfile chunks r.
  assert (r = if (idx <? 0)%Z || (Z.of_nat (length chunks) <=? idx)%Z
              then not_found (txt_query id q)
              else found (txt_query id q)
                     (nth (Z.to_nat idx) chunks EmptyString)) as Hr.
  { subst r chunks.
    rewrite (resolve_chunk store id q p0 p1 Hzone Hparts Hchunk).
    cbv zeta. now rewrite Hidx, Hfile. }
  split; [| split].
  - intros Hge. rewrite Hr.
    rewrite (proj2 (Z.leb_le _ _) Hge). now rewrite orb_true_r.
  - intros ->. rewrite Hr. subst chunks.
    change (Z.of_nat (length (Server.b64_chunks []))) with 0%Z.
    destruct (Z.ltb_spec idx 0) as [_ | Hpos]; [reflexivity |].
    now rewrite (proj2 (Z.leb_le 0 idx) Hpos).
  - intros [Hlo Hhi]. rewrite Hr.
    rewrite (proj2 (Z.ltb_ge idx 0) Hlo).
    rewrite (proj2 (Z.leb_gt _ _) Hhi). cbn [orb].
    destruct (lookup_lt_is_Some_2 chunks (Z.to_nat idx) ltac:(lia)) as [c Hc].
    exists c. split; [exact Hc |].
    now rewrite (nth_lookup_Some _ _ EmptyString _ Hc).
Qed.

Lemma chunk_handler_range_witness :
  exists c, Server.b64_chunks hello_world !! 0 = Some c
            /\ Server.resolve hello_store (txt_query 1 "chunk0.hello.lab.")
               = found (txt_query 1 "chunk0.hello.lab.") c.
Proof.
  refine (proj2 (proj2 (chunk_handler_range hello_store 1
            "chunk0.hello.lab." "chunk0" "hello" 0%Z hello_world
            _ _ _ _ _)) _); vm_compute; try reflexivity.
  split; [discriminate | reflexivity].
Defined.

(** ** The client *)

Section ClientFacts.

Context {Net : Type}.
Variable send : string -> Net -> option Client.packet * Net.

Lemma queryt_files (name : string) (w w' : Client.world)
    (r : result string) :
  Client.queryt send name w = (r, w') -> Client.files w' = Client.files w.
Proof.
  unfold Client.queryt.
  destruct (send name (Client.net w)) as [[pkt |] n'].
  - destruct (negb (N.eqb (Client.p_rcode pkt) 0)
              || (length (Client.p_rr pkt) =? 0));
      intros [= _ <-]; reflexivity.
  - intros [= _ <-]. reflexivity.
Qed.

Lemma fetch_loop_step (name : string) (i k : nat) (chunks : list string)
    (w : Client.world) :
  Client.fetch_loop send name i (S k) chunks w =
  match Client.queryt send (Client.chunk_query i name) w with
  | (Ok c, w') => Client.fetch_loop send name (S i) k (chunks ++ [c]) w'
  | (Raise e, w') => (Raise e, w')
  end.
Proof. reflexivity. Qed.

Lemma fetch_loop_files (name : string) (k i : nat) (chunks : list string)
    (w w' : Client.world) (r : result (list string)) :
  Client.fetch_loop send name i k chunks w = (r, w') ->
  Client.files w' = Client.files w.
Proof.
  revert i chunks w. induction k as [|k IH]; intros i chunks w.
  - intros [= _ <-]. reflexivity.
  - rewrite fetch_loop_step.
    destruct (Client.queryt send (Client.chunk_query i name) w)
      as [[c | e] w1] eqn:Hq.
    + intros Hloop. rewrite (IH _ _ _ Hloop). exact (queryt_files _ _ _ _ Hq).
    + intros [= _ <-]. exact (queryt_files _ _ _ _ Hq).
Qed.

(** [fetchf], stage by stage. *)
Lemma fetchf_stages (name out_path : string) (w : Client.world) :
  Client.fetchf send name out_path w =
  match Client.queryt send ("meta." +:+ name +:+ "." +:+ Client.ZONE) w with
  | (Raise e, w1) => (Raise e, w1)
  | (Ok meta_txt, w1) =>
      match Client.read_fields (Client.parse_meta meta_txt) with
      | Raise e => (Raise e, w1)
      | Ok f =>
          match Client.fetch_loop send name 0
                  (Z.to_nat (Client.chunk_count f)) [] w1 with
          | (Raise e, w2) => (Raise e, w2)
          | (Ok chunks, w2) =>
              match Base64.b64decode_str (Py.join chunks) with
              | Raise e => (Raise e, w2)
              | Ok data =>
                  if negb (Z.eqb (Client.expected_bytes f) 0)
                     && negb (Z.eqb (Z.of_nat (length data))
                                    (Client.expected_bytes f))
                  then (Raise RuntimeError, w2)
                  else if negb (String.eqb (Client.expected_sha f) EmptyString)
                          && negb (String.eqb (Client.sha256_hex data)
                                              (Client.expected_sha f))
                  then (Raise RuntimeError, w2)
                  else (Ok out_path,
                        Client.World (Client.net w2)
                          (<[out_path := data]> (Client.files w2)))
              end
          end
      end
  end.
Proof.
  unfold Client.fetchf, Client.mbind, Client.lift.
  destruct (Client.queryt send _ w) as [[meta_txt | e] w1]; [| reflexivity].
  destruct (Client.read_fields _) as [f | e]; [| reflexivity].
  destruct (Client.fetch_loop send name 0 _ [] w1) as [[chunks | e] w2];
    [| reflexivity].
  destruct (Base64.b64decode_str _) as [data | e]; [| reflexivity].
  destruct (negb _ && negb _); [reflexivity |].
  destruct (negb _ && negb _); reflexivity.
Qed.

End ClientFacts.

(** C8. [fetchf] writes the output file only as its last step. Whenever
    it raises, the files are as they were before the call and nothing is
    returned; and it raises whenever a step fails: the metadata query,
    the reading of the metadata, a chunk query, the decoding, the length
    check or the digest check. *)
Theorem fetchf_all_or_nothing {Net : Type}
    (send : string -> Net -> option Client.packet * Net)
    (name out_path : string) (w : Client.world) :
  let run := Client.fetchf send name out_path w in
  let meta_q := "meta." +:+ name +:+ "." +:+ Client.ZONE in
  (forall e w', run = (Raise e, w') -> Client.files w' = Client.files w)
  /\ (forall p w', run = (Ok p, w') ->
      p = out_path
      /\ exists data, Client.files w' = <[out_path := data]> (Client.files w))
  /\ (forall e w1, Client.queryt send meta_q w = (Raise e, w1) ->
      run = (Raise e, w1))
  /\ (forall meta_txt w1, Client.queryt send meta_q w = (Ok meta_txt, w1) ->
      (forall e, Client.read_fields (Client.parse_meta meta_txt) = Raise e ->
         run = (Raise e, w1))
      /\ (forall f, Client.read_fields (Client.parse_meta meta_txt) = Ok f ->
          let loop :=
            Client.fetch_loop send name 0 (Z.to_nat (Client.chunk_count f))
              [] w1 in
          (forall e w2, loop = (Raise e, w2) -> run = (Raise e, w2))
          /\ (forall chunks w2, loop = (Ok chunks, w2) ->
              (forall e, Base64.b64decode_str (Py.join chunks) = Raise e ->
                 run = (Raise e, w2))
              /\ (forall data,
                    Base64.b64decode_str (Py.join chunks) = Ok data ->
                  (Client.expected_bytes f <> 0%Z ->
                   Z.of_nat (length data) <> Client.expected_bytes f ->
                   run = (Raise RuntimeError, w2))
                  /\ (Client.expected_sha f <> EmptyString ->
                      Client.sha256_hex data <> Client.expected_sha f ->
                      run = (Raise RuntimeError, w2))))))
  /\ (forall i k chunks wa e wb,
        Client.queryt send (Client.chunk_query i name) wa = (Raise e, wb) ->
        Client.fetch_loop send name i (S k) chunks wa = (Raise e, wb)).
Proof.
  intros run meta_q. subst run. rewrite fetchf_stages. fold meta_q.
  split; [| split; [| split; [| split]]].
  - (* a failure leaves the files alone *)
    intros e w'.
    destruct (Client.queryt send meta_q w) as [[meta_txt | e0] w1] eqn:Hq;
      pose proof (queryt_files _ _ _ _ _ Hq) as Hf1;
      [| intros [= _ <-]; exact Hf1].
    destruct (Client.read_fields _) as [f | e1];
      [| intros [= _ <-]; exact Hf1].
    destruct (Client.fetch_loop send name 0 _ [] w1)
      as [[chunks | e2] w2] eqn:Hl;
      pose proof (fetch_loop_files _ _ _ _ _ _ _ _ Hl) as Hf2;
      [| intros [= _ <-]; congruence].
    destruct (Base64.b64decode_str _) as [data | e3];
      [| intros [= _ <-]; congruence].
    destruct (negb _ && negb _); [intros [= _ <-]; congruence |].
    destruct (negb _ && negb _); [intros [= _ <-]; congruence |].
    discriminate.
  - (* success writes the output file and nothing else *)
    intros p w'.
    destruct (Client.queryt send meta_q w) as [[meta_txt | e0] w1] eqn:Hq;
      pose proof (queryt_files _ _ _ _ _ Hq) as Hf1; [| discriminate].
    destruct (Client.read_fields _) as [f | e1]; [| discriminate].
    destruct (Client.fetch_loop send name 0 _ [] w1)
      as [[chunks | e2] w2] eqn:Hl;
      pose proof (fetch_loop_files _ _ _ _ _ _ _ _ Hl) as Hf2;
      [| discriminate].
    destruct (Base64.b64decode_str _) as [data | e3]; [| discriminate].
    destruct (negb _ && negb _); [discriminate |].
    destruct (negb _ && negb _); [discriminate |].
    intros [= <- <-]. split; [reflexivity |].
    exists data. cbn [Client.files]. congruence.
  - (* the metadata query fails *)
    intros e w1 Hq. now rewrite Hq.
  - intros meta_txt w1 Hq. rewrite Hq. split.
    + (* the metadata cannot be read *)
      intros e Hm. now rewrite Hm.
    + intros f Hm loop. subst loop. rewrite Hm. split.
      * (* a chunk query fails *)
        intros e w2 Hl. now rewrite Hl.
      * intros chunks w2 Hl. rewrite Hl. split.
        -- (* the text is not base64 *)
           intros e Hd. now rewrite Hd.
        -- intros data Hd. rewrite Hd. split.
           ++ (* the length differs *)
              intros H1 H2.
              now rewrite (proj2 (Z.eqb_neq _ _) H1),
                          (proj2 (Z.eqb_neq _ _) H2).
           ++ (* the digest differs *)
              intros H1 H2.
              rewrite (proj2 (String.eqb_neq _ _) H1),
                      (proj2 (String.eqb_neq _ _) H2).
              now destruct (negb _ && negb _).
  - (* inside the loop, a failed query ends the loop at once *)
    intros i k chunks wa e wb Hfail. now rewrite fetch_loop_step, Hfail.
Qed.

(** Against the store of the scenario, fetching a name that has no file
    fails on the metadata query and writes nothing. *)
Lemma fetchf_all_or_nothing_witness :
  Client.files
    (snd (Client.fetchf (Loopback.send hello_store) "nothing" "out.bin"
            (Client.World 0%N ∅)))
  = ∅.
Proof.
  apply (proj1 (fetchf_all_or_nothing (Loopback.send hello_store)
                  "nothing" "out.bin" (Client.World 0%N ∅))
           RuntimeError).
  vm_compute. reflexivity.
Defined.






(** The resolver seen through the loopback: a positive reply comes back
    as one rendered record with status zero. *)
Lemma loopback_found (store : gmap string Server.node) (sent : N)
    (name txt : string) :
  Server.resolve store (txt_query sent (Loopback.absolute name))
  = found (txt_query sent (Loopback.absolute name)) txt ->
  Loopback.send store name sent
  = (Some (Client.Packet 0 [Loopback.render_txt txt]), N.succ sent).
Proof.
  unfold Loopback.send. fold (txt_query sent (Loopback.absolute name)).
  now intros ->.
Qed.

Lemma queryt_answer {Net : Type}
    (send : string -> Net -> option Client.packet * Net)
    (name rendered : string) (w : Client.world) (n' : Net) :
  send name (Client.net w) = (Some (Client.Packet 0 [rendered]), n') ->
  Client.queryt send name w
  = (Ok (Py.strip_chars (String Py.quote_char EmptyString) rendered),
     Client.World n' (Client.files w)).
Proof. unfold Client.queryt. now intros ->. Qed.

(** C2, as amended. In every store where the entry [hello] is a regular
    file holding the eleven bytes of [hello world], the meta reply is the
    text below, whose digest has its sixty-four hexadecimal digits; the
    reply for chunk 0 is the base64 text of the file; and the fetch
    through the resolver reads the fields 1, the digest and 11, so that
    both checks are performed, passes them, and writes exactly the eleven
    bytes of the file. *)
Theorem hello_scenario (store : gmap string Server.node) :
  store !! "hello" = Some (Server.RegularFile hello_world) ->
  let digest :=
    "b94d27b9934d3e08a52e52d7da7dabfac484efe37a5380ee9088f7ace2efcde9" in
  let meta := "chunks=1;enc=base64;sha256=" +:+ digest +:+ ";bytes=11" in
  (forall id,
     Server.resolve store (txt_query id "meta.hello.lab.")
     = found (txt_query id "meta.hello.lab.") meta)
  /\ (forall id,
       Server.resolve store (txt_query id "chunk0.hello.lab.")
       = found (txt_query id "chunk0.hello.lab.") "aGVsbG8gd29ybGQ=")
  /\ (forall (out_path : string) (sent : N) (files : gmap string (list byte)),
       Client.fetchf (Loopback.send store) "hello" out_path
         (Client.World sent files)
       = (Ok out_path,
          Client.World (N.succ (N.succ sent))
            (<[out_path := hello_world]> files)))
  /\ Client.read_fields (Client.parse_meta meta)
     = Ok (Client.Fields 1 digest 11)
  /\ length hello_world = 11
  /\ Client.sha256_hex hello_world = digest.
Proof.
  intros Hfile digest meta.
  assert (Server.f_bytes store "hello" = Server.f_bytes hello_store "hello")
    as Hsame.
  { unfold Server.f_bytes, Server.candidates, Server.first_file,
      Server.read_file.
    rewrite Hfile. vm_compute. reflexivity. }
  assert (forall id,
            Server.resolve store (txt_query id "meta.hello.lab.")
            = found (txt_query id "meta.hello.lab.") meta) as Hmeta.
  { intros id. rewrite (resolve_store_local store hello_store) by exact Hsame.
    vm_compute. reflexivity. }
  assert (forall id,
            Server.resolve store (txt_query id "chunk0.hello.lab.")
            = found (txt_query id "chunk0.hello.lab.") "aGVsbG8gd29ybGQ=")
    as Hchunk.
  { intros id. rewrite (resolve_store_local store hello_store) by exact Hsame.
    vm_compute. reflexivity. }
  assert (Client.read_fields (Client.parse_meta meta)
          = Ok (Client.Fields 1 digest 11)) as Hfields
    by (vm_compute; reflexivity).
  split; [exact Hmeta |]. split; [exact Hchunk |].
  split; [| split; [exact Hfields | split; vm_compute; reflexivity]].
  intros out_path sent files. rewrite fetchf_stages.
  change ("meta." +:+ "hello" +:+ "." +:+ Client.ZONE) with "meta.hello.lab".
  rewrite (queryt_answer (Loopback.send store) "meta.hello.lab" _
             (Client.World sent files) _
             (loopback_found store sent "meta.hello.lab" meta (Hmeta sent))).
  change (Py.strip_chars (String Py.quote_char EmptyString)
            (Loopback.render_txt meta)) with meta.
  cbn [Client.files Client.net]. rewrite Hfields.
  change (Z.to_nat (Client.chunk_count (Client.Fields 1 digest 11))) with 1.
  rewrite fetch_loop_step.
  change (Client.chunk_query 0 "hello") with "chunk0.hello.lab".
  rewrite (queryt_answer (Loopback.send store) "chunk0.hello.lab" _
             (Client.World (N.succ sent) files) _
             (loopback_found store (N.succ sent) "chunk0.hello.lab"
                "aGVsbG8gd29ybGQ=" (Hchunk (N.succ sent)))).
  cbn [Client.fetch_loop Client.ret Client.net Client.files].
  replace (Base64.b64decode_str _) with (Ok hello_world)
    by (vm_compute; reflexivity).
  replace (negb _ && negb _) with false by (vm_compute; reflexivity).
  replace (negb _ && negb _) with false by (vm_compute; reflexivity).
  reflexivity.
Qed.

Lemma hello_scenario_witness :
  Server.resolve hello_store (txt_query 1 "chunk0.hello.lab.")
  = found (txt_query 1 "chunk0.hello.lab.") "aGVsbG8gd29ybGQ=".
Proof.
  refine (proj1 (proj2 (hello_scenario hello_store _)) 1%N).
  reflexivity.
Defined.

(** The claim C2 as stated fails: the digest it gives has sixty-three
    digits, and the meta reply is a different text. *)
Lemma hello_meta_not_as_claimed :
  let claimed :=
    "chunks=1;enc=base64;sha256=b94d27b9934d3e08a52e52d7da7dabfac484efe37a5380ee9088f7ace2efcde;bytes=11" in
  exists txt,
    Server.payload (Server.resolve hello_store (txt_query 1 "meta.hello.lab."))
    = Some txt
    /\ String.eqb txt claimed = false
    /\ String.length txt = S (String.length claimed).
Proof. eexists. vm_compute. repeat split. Qed.

(** ** Checks of the library models against known values *)

Example sha256_empty :
  Sha256.hexdigest []
  = "e3b0c44298fc1c149afbf4c8996fb92427ae41e4649b934ca495991b7852b855".
Proof. vm_compute. reflexivity. Qed.

Example sha256_abc :
  Sha256.hexdigest (String.list_byte_of_string "abc")
  = "ba7816bf8f01cfea414140de5dae2223b00361a396177a9cb410ff61f20015ad".
Proof. vm_compute. reflexivity. Qed.

Example sha256_two_blocks :
  Sha256.hexdigest
    (String.list_byte_of_string
       "abcdbcdecdefdefgefghfghighijhijkijkljklmklmnlmnomnopnopq")
  = "248d6a61d20638b8e5c026930c3e6039a33ce45964ff2167f6ecedd419db06c1".
Proof. vm_compute. reflexivity. Qed.

Example b64encode_padding :
  Base64.b64encode (String.list_byte_of_string "a") = "YQ=="
  /\ Base64.b64encode (String.list_byte_of_string "ab") = "YWI="
  /\ Base64.b64encode (String.list_byte_of_string "abc") = "YWJj".
Proof. vm_compute. repeat split. Qed.

Example b64decode_lenient :
  Base64.b64decode_str "Y Q = =x" = Ok (String.list_byte_of_string "a")
  /\ Base64.b64decode_str "YQ=" = Raise BinasciiError
  /\ Base64.b64decode_str "aGVsbG8gd29ybGQ" = Raise BinasciiError.
Proof. vm_compute. repeat split. Qed.

Example int_literals :
  Py.int "007" = Some 7%Z /\ Py.int " 12 " = Some 12%Z
  /\ Py.int "+3" = Some 3%Z /\ Py.int "-12" = Some (-12)%Z
  /\ Py.int "1_0" = Some 10%Z /\ Py.int "1__0" = None
  /\ Py.int "_1" = None /\ Py.int "1_" = None /\ Py.int "-" = None
  /\ Py.int "+-1" = None /\ Py.int "1a" = None /\ Py.int EmptyString = None
  /\ Py.int (String "028" "1") = None
  /\ Py.int (Py.strip (String "028" "1")) = Some 1%Z.
Proof. vm_compute. repeat split. Qed.

Example range_steps :
  Py.range 0 400 180 = [0; 180; 360] /\ Py.range 0 360 180 = [0; 180]
  /\ Py.range 0 0 180 = [].
Proof. vm_compute. repeat split. Qed.

Example split_fields :
  Py.split "." "a..b" = ["a"; EmptyString; "b"]
  /\ Py.split "." EmptyString = [EmptyString]
  /\ Py.strip_chars "." "..a.b." = "a.b"
  /\ Py.split_once "=" "k=v=w" = Some ("k", "v=w").
Proof. vm_compute. repeat split. Qed.

(** A file of 500 bytes travels in four chunks, fetched with five
    queries. *)
Example fetch_four_chunks :
  length (Server.b64_chunks (repeat x61 500)) = 4
  /\ Client.fetchf
       (Loopback.send {[ "big.bin" := Server.RegularFile (repeat x61 500) ]})
       "big" "out.bin" (Client.World 0%N ∅)
     = (Ok "out.bin", Client.World 5%N {[ "out.bin" := repeat x61 500 ]}).
Proof. vm_compute. repeat split. Qed.

(** * Further properties *)

(** ** More on strings *)

Section MoreStringFacts.

Lemma append_assoc (s t u : string) : (s +:+ t) +:+ u = s +:+ (t +:+ u).
Proof.
  induction s as [|c s IH]; [reflexivity |].
  now rewrite !append_cons, IH.
Qed.

Lemma all_chars_app (p : ascii -> bool) (s t : string) :
  all_chars p (s +:+ t) = all_chars p s && all_chars p t.
Proof.
  induction s as [|c s IH]; [reflexivity |].
  rewrite append_cons. cbn [all_chars]. now rewrite IH, andb_assoc.
Qed.

Lemma rev_app_spec (s t : string) :
  String.rev_app s t = String.rev s +:+ t.
Proof.
  unfold String.rev. revert t.
  induction s as [|c s IH]; intros t; [reflexivity |].
  cbn [String.rev_app]. rewrite (IH (String c t)), (IH (String c EmptyString)).
  now rewrite append_assoc.
Qed.

Lemma rev_cons (c : ascii) (s : string) :
  String.rev (String c s) = String.rev s +:+ String c EmptyString.
Proof. unfold String.rev at 1. cbn [String.rev_app]. apply rev_app_spec. Qed.

Lemma rev_append (s t : string) :
  String.rev (s +:+ t) = String.rev t +:+ String.rev s.
Proof.
  induction s as [|c s IH].
  - now rewrite append_empty_l, append_empty_r.
  - now rewrite append_cons, !rev_cons, IH, append_assoc.
Qed.

Lemma rev_involutive (s : string) : String.rev (String.rev s) = s.
Proof.
  induction s as [|c s IH]; [reflexivity |].
  rewrite rev_cons, rev_append, IH. reflexivity.
Qed.

Lemma all_chars_rev (p : ascii -> bool) (s : string) :
  all_chars p (String.rev s) = all_chars p s.
Proof.
  induction s as [|c s IH]; [reflexivity |].
  rewrite rev_cons, all_chars_app, IH. cbn [all_chars].
  now rewrite andb_true_r, andb_comm.
Qed.

Lemma lstrip_none_of (cs s : string) :
  none_of cs s = true -> Py.lstrip_chars cs s = s.
Proof.
  destruct s as [|c s]; [reflexivity |].
  unfold none_of. cbn [all_chars Py.lstrip_chars].
  intros [Hc _]%andb_prop. apply negb_true_iff in Hc. now rewrite Hc.
Qed.

(** Stripping leaves alone a string that holds none of the characters
    to strip. *)
Lemma strip_none_of (cs s : string) :
  none_of cs s = true -> Py.strip_chars cs s = s.
Proof.
  intros Hs. unfold Py.strip_chars.
  rewrite (lstrip_none_of cs s Hs).
  rewrite lstrip_none_of by (unfold none_of; now rewrite all_chars_rev).
  apply rev_involutive.
Qed.

(** Stripping removes one such character put before and one put after. *)
Lemma strip_wrapped (cs s : string) (d : ascii) :
  Py.mem_char d cs = true ->
  none_of cs s = true ->
  Py.strip_chars cs (String d (s +:+ String d EmptyString)) = s.
Proof.
  intros Hd Hs. unfold Py.strip_chars.
  cbn [Py.lstrip_chars]. rewrite Hd.
  destruct s as [|c s].
  - rewrite append_empty_l. cbn [Py.lstrip_chars]. now rewrite Hd.
  - assert (Py.mem_char c cs = false) as Hc.
    { unfold none_of in Hs. cbn [all_chars] in Hs.
      apply andb_prop in Hs as [Hc _]. now apply negb_true_iff. }
    rewrite append_cons. cbn [Py.lstrip_chars]. rewrite Hc.
    rewrite <- append_cons, rev_append.
    change (String.rev (String d EmptyString)) with (String d EmptyString).
    rewrite append_cons, append_empty_l. cbn [Py.lstrip_chars]. rewrite Hd.
    rewrite lstrip_none_of by (unfold none_of; now rewrite all_chars_rev).
    apply rev_involutive.
Qed.

(** Stripping removes one such character put after a string that has
    none, and is not empty. *)
Lemma strip_trailing (cs s : string) (d : ascii) :
  Py.mem_char d cs = true ->
  none_of cs s = true ->
  s <> EmptyString ->
  Py.strip_chars cs (s +:+ String d EmptyString) = s.
Proof.
  intros Hd Hs Hne. destruct s as [|c s]; [congruence |].
  assert (Py.mem_char c cs = false) as Hc.
  { unfold none_of in Hs. cbn [all_chars] in Hs.
    apply andb_prop in Hs as [Hc _]. now apply negb_true_iff. }
  unfold Py.strip_chars. rewrite append_cons. cbn [Py.lstrip_chars].
  rewrite Hc. rewrite <- append_cons, rev_append.
  change (String.rev (String d EmptyString)) with (String d EmptyString).
  rewrite append_cons, append_empty_l. cbn [Py.lstrip_chars]. rewrite Hd.
  rewrite lstrip_none_of by (unfold none_of; now rewrite all_chars_rev).
  apply rev_involutive.
Qed.

Lemma drop_append (s t : string) : Py.drop (String.length s) (s +:+ t) = t.
Proof. induction s as [|c s IH]; [reflexivity | exact IH]. Qed.

Lemma drop_append_more (s t : string) (k : nat) :
  Py.drop (String.length s + k) (s +:+ t) = Py.drop k t.
Proof. induction s as [|c s IH]; [reflexivity | exact IH]. Qed.

Lemma substring_append (s t : string) :
  String.substring 0 (String.length s) (s +:+ t) = s.
Proof.
  induction s as [|c s IH].
  - destruct t; reflexivity.
  - rewrite append_cons. cbn [String.length String.substring]. now rewrite IH.
Qed.

Lemma endswith_append (s t : string) : Py.endswith (s +:+ t) t = true.
Proof.
  unfold Py.endswith. rewrite length_append.
  replace (String.length s + String.length t - String.length t)
    with (String.length s) by lia.
  rewrite drop_append, String.eqb_refl.
  now rewrite (proj2 (Nat.leb_le _ _)) by lia.
Qed.

Lemma drop_last_append (s t : string) :
  Py.drop_last (String.length t) (s +:+ t) = s.
Proof.
  unfold Py.drop_last. rewrite length_append.
  replace (String.length s + String.length t - String.length t)
    with (String.length s) by lia.
  apply substring_append.
Qed.

Lemma startswith_append (p s : string) : Py.startswith (p +:+ s) p = true.
Proof.
  unfold Py.startswith. apply String.prefix_correct. apply substring_append.
Qed.

(** Splitting at a separator that the first field does not hold. *)
Lemma split_none_of (sep : ascii) (s : string) :
  none_of (String sep EmptyString) s = true -> Py.split sep s = [s].
Proof.
  unfold none_of. induction s as [|c s IH]; [reflexivity |].
  cbn [all_chars Py.mem_char Py.split]. rewrite orb_false_r.
  intros [Hc Hs]%andb_prop. apply negb_true_iff in Hc.
  now rewrite Hc, (IH Hs).
Qed.

Lemma split_append (sep : ascii) (s t : string) :
  none_of (String sep EmptyString) s = true ->
  Py.split sep (s +:+ String sep t) = s :: Py.split sep t.
Proof.
  unfold none_of. induction s as [|c s IH].
  - intros _. rewrite append_empty_l. cbn [Py.split].
    now rewrite Ascii.eqb_refl.
  - cbn [all_chars Py.mem_char]. rewrite orb_false_r.
    intros [Hc Hs]%andb_prop. apply negb_true_iff in Hc.
    rewrite append_cons. cbn [Py.split]. now rewrite Hc, (IH Hs).
Qed.

Lemma split_once_append (sep : ascii) (s t : string) :
  none_of (String sep EmptyString) s = true ->
  Py.split_once sep (s +:+ String sep t) = Some (s, t).
Proof.
  unfold none_of. induction s as [|c s IH].
  - intros _. rewrite append_empty_l. cbn [Py.split_once].
    now rewrite Ascii.eqb_refl.
  - cbn [all_chars Py.mem_char]. rewrite orb_false_r.
    intros [Hc Hs]%andb_prop. apply negb_true_iff in Hc.
    rewrite append_cons. cbn [Py.split_once]. now rewrite Hc, (IH Hs).
Qed.

Lemma lower_append (s t : string) :
  Py.lower (s +:+ t) = Py.lower s +:+ Py.lower t.
Proof.
  induction s as [|c s IH]; [reflexivity |].
  rewrite !append_cons. cbn [Py.lower]. now rewrite append_cons, IH.
Qed.

Lemma lower_char_idempotent (c : ascii) :
  Py.lower_char (Py.lower_char c) = Py.lower_char c.
Proof.
  destruct c as [[] [] [] [] [] [] [] []]; reflexivity.
Qed.

Lemma lower_idempotent (s : string) : Py.lower (Py.lower s) = Py.lower s.
Proof.
  induction s as [|c s IH]; [reflexivity |].
  cbn [Py.lower]. now rewrite lower_char_idempotent, IH.
Qed.

End MoreStringFacts.

(** ** Decimal numbers: [str] and [int] *)

Section IntFacts.

Lemma str_of_nat_digits (n : nat) :
  all_chars is_digit (Py.str_of_nat n) = true.
Proof.
  unfold Py.str_of_nat. induction (Nat.to_uint n) as [|d IH|d IH|d IH|d IH
    |d IH|d IH|d IH|d IH|d IH|d IH]; cbn [NilEmpty.string_of_uint all_chars];
    try reflexivity; rewrite IH; reflexivity.
Qed.

Lemma to_little_uint_nonnil (n : nat) (acc : Decimal.uint) :
  acc <> Decimal.Nil -> Nat.to_little_uint n acc <> Decimal.Nil.
Proof.
  revert acc. induction n as [|n IH]; intros acc Hacc; [exact Hacc |].
  cbn [Nat.to_little_uint]. apply IH. now destruct acc.
Qed.

Lemma to_uint_nonnil (n : nat) : Nat.to_uint n <> Decimal.Nil.
Proof.
  unfold Nat.to_uint. intros H%DecimalFacts.rev_nil_inv.
  now apply to_little_uint_nonnil in H.
Qed.

Lemma str_of_nat_nonempty (n : nat) : Py.str_of_nat n <> EmptyString.
Proof.
  unfold Py.str_of_nat. pose proof (to_uint_nonnil n) as H.
  destruct (Nat.to_uint n); [congruence | discriminate ..].
Qed.

Lemma int_digits_uint (d : Decimal.uint) (a : nat) :
  Py.int_digits (NilEmpty.string_of_uint d) (Z.of_nat a) true
  = Some (Z.of_nat (Nat.of_uint_acc d a)).
Proof.
  revert a.
  induction d as [|d IH|d IH|d IH|d IH|d IH|d IH|d IH|d IH|d IH|d IH];
    intros a; [reflexivity | ..];
    cbn [NilEmpty.string_of_uint Py.int_digits Nat.of_uint_acc];
    match goal with
    | |- context [Py.digit_val ?c] =>
        let v := eval vm_compute in (Py.digit_val c) in
        change (Py.digit_val c) with v
    end;
    cbv iota beta; rewrite Nat.tail_mul_spec, <- IH; f_equal; lia.
Qed.

Lemma digit_not_int_space (c : ascii) :
  is_digit c = true -> negb (Py.mem_char c Py.int_space) = true.
Proof.
  destruct c as [[] [] [] [] [] [] [] []]; try reflexivity; discriminate.
Qed.

Lemma digit_not_space (c : ascii) :
  is_digit c = true -> negb (Py.mem_char c Py.whitespace) = true.
Proof.
  destruct c as [[] [] [] [] [] [] [] []]; try reflexivity; discriminate.
Qed.

(** [int(str(n))] is [n]. *)
Lemma int_str_of_nat (n : nat) : Py.int (Py.str_of_nat n) = Some (Z.of_nat n).
Proof.
  unfold Py.int.
  rewrite strip_none_of
    by exact (all_chars_impl _ _ _ digit_not_int_space (str_of_nat_digits n)).
  rewrite <- (DecimalNat.Unsigned.of_to n) at 2.
  unfold Py.str_of_nat. pose proof (to_uint_nonnil n) as Hnil.
  destruct (Nat.to_uint n) as [|d|d|d|d|d|d|d|d|d|d]; [congruence | ..];
    cbn [NilEmpty.string_of_uint]; cbv iota beta;
    cbn [Py.int_digits];
    match goal with
    | |- context [Py.digit_val ?c] =>
        let v := eval vm_compute in (Py.digit_val c) in
        change (Py.digit_val c) with v
    end;
    cbv iota beta;
    match goal with
    | |- Py.int_digits _ ?z true = _ =>
        let k := eval vm_compute in (Z.to_nat z) in
        change z with (Z.of_nat k)
    end;
    rewrite int_digits_uint; reflexivity.
Qed.

End IntFacts.

(** ** The digest *)

Section DigestFacts.

Lemma hex_of_bytes_chars (bs : list byte) :
  all_chars is_hex (Sha256.hex_of_bytes bs) = true.
Proof.
  induction bs as [|b bs IH]; [reflexivity |].
  cbn [Sha256.hex_of_bytes all_chars]. rewrite IH, andb_true_r.
  destruct b; reflexivity.
Qed.

Lemma length_hex_of_bytes (bs : list byte) :
  String.length (Sha256.hex_of_bytes bs) = 2 * length bs.
Proof.
  induction bs as [|b bs IH]; [reflexivity |].
  cbn [Sha256.hex_of_bytes String.length length]. rewrite IH. lia.
Qed.

Lemma length_be_bytes (k : nat) (v : N) : length (Sha256.be_bytes k v) = k.
Proof.
  revert v. induction k as [|k IH]; intros v; [reflexivity |].
  cbn [Sha256.be_bytes]. rewrite length_app, IH. cbn [length]. lia.
Qed.

Lemma length_compress (h block : list N) :
  length h = 8 -> length (Sha256.compress h block) = 8.
Proof.
  intros Hh. unfold Sha256.compress, Sha256.list_of.
  rewrite length_map, length_combine, Hh. reflexivity.
Qed.

Lemma length_hash_blocks (fuel : nat) (h ws : list N) :
  length h = 8 -> length (Sha256.hash_blocks fuel h ws) = 8.
Proof.
  revert h ws. induction fuel as [|fuel IH]; intros h ws Hh; [exact Hh |].
  destruct ws as [|w ws]; [exact Hh |].
  cbn [Sha256.hash_blocks]. apply IH. now apply length_compress.
Qed.

Lemma length_concat_be_bytes (ws : list N) :
  length (concat (map (Sha256.be_bytes 4) ws)) = 4 * length ws.
Proof.
  induction ws as [|w ws IH]; [reflexivity |].
  cbn [map concat]. rewrite length_app, length_be_bytes, IH.
  cbn [length]. lia.
Qed.

(** The digest has thirty-two bytes, whatever the message. *)
Lemma length_digest (msg : list byte) : length (Sha256.digest msg) = 32.
Proof.
  unfold Sha256.digest. rewrite length_concat_be_bytes.
  now rewrite length_hash_blocks.
Qed.

Lemma length_hexdigest (msg : list byte) :
  String.length (Sha256.hexdigest msg) = 64.
Proof.
  unfold Sha256.hexdigest. now rewrite length_hex_of_bytes, length_digest.
Qed.

End DigestFacts.

(** ** The metadata text *)

Section MetaFacts.

Lemma meta_text_fields (d1 h d2 : string) :
  "chunks=" +:+ d1 +:+ ";enc=base64;sha256=" +:+ h +:+ ";bytes=" +:+ d2
  = ("chunks" +:+ String "=" d1)
    +:+ String ";"
          ("enc=base64"
           +:+ String ";"
                 (("sha256" +:+ String "=" h)
                  +:+ String ";" ("bytes" +:+ String "=" d2))).
Proof. now rewrite !append_assoc. Qed.

Lemma parse_meta_fields (d1 h d2 : string) :
  none_of ";= " d1 = true -> none_of ";= " h = true ->
  none_of ";= " d2 = true ->
  all_chars (fun c => negb (Py.mem_char c Py.whitespace)) d1 = true ->
  all_chars (fun c => negb (Py.mem_char c Py.whitespace)) h = true ->
  all_chars (fun c => negb (Py.mem_char c Py.whitespace)) d2 = true ->
  Client.parse_meta
    ("chunks=" +:+ d1 +:+ ";enc=base64;sha256=" +:+ h +:+ ";bytes=" +:+ d2)
  = <["bytes" := d2]> (<["sha256" := h]> (<["enc" := "base64"]>
      (<["chunks" := d1]> ∅))).
Proof.
  intros H1 Hh H2 W1 Wh W2.
  assert (forall s, none_of ";= " s = true ->
                    none_of (String ";" EmptyString) s = true
                    /\ none_of (String "=" EmptyString) s = true) as Hsep.
  { intros s Hs. split; revert Hs; apply all_chars_impl; by_all_chars. }
  destruct (Hsep d1 H1) as [S1 E1], (Hsep h Hh) as [Sh Eh],
    (Hsep d2 H2) as [S2 E2].
  unfold Client.parse_meta. rewrite meta_text_fields.
  rewrite split_append
    by (unfold none_of in *; rewrite all_chars_app; cbn [all_chars];
        now rewrite S1).
  rewrite split_append by reflexivity.
  rewrite split_append
    by (unfold none_of in *; rewrite all_chars_app; cbn [all_chars];
        now rewrite Sh).
  rewrite split_none_of
    by (unfold none_of in *; rewrite all_chars_app; cbn [all_chars];
        now rewrite S2).
  cbn [fold_left].
  rewrite !split_once_append by reflexivity.
  change (Py.split_once "=" "enc=base64") with (Some ("enc", "base64")).
  cbv iota beta.
  change (Py.strip "enc") with "enc".
  change (Py.strip "base64") with "base64".
  change (Py.strip "chunks") with "chunks".
  change (Py.strip "sha256") with "sha256".
  change (Py.strip "bytes") with "bytes".
  unfold Py.strip. now rewrite !strip_none_of by assumption.
Qed.

Lemma digits_plain (s : string) :
  all_chars is_digit s = true ->
  none_of ";= " s = true
  /\ all_chars (fun c => negb (Py.mem_char c Py.whitespace)) s = true.
Proof.
  intros Hs. split; revert Hs; apply all_chars_impl; by_all_chars.
Qed.

Lemma hex_plain (s : string) :
  all_chars is_hex s = true ->
  none_of ";= " s = true
  /\ all_chars (fun c => negb (Py.mem_char c Py.whitespace)) s = true.
Proof.
  intros Hs. split; revert Hs; apply all_chars_impl; by_all_chars.
Qed.

Lemma parse_meta_text (data : list byte) :
  Client.parse_meta (Server.meta_text data)
  = <["bytes" := Py.str_of_nat (length data)]>
      (<["sha256" := Server.sha256_hex data]>
         (<["enc" := "base64"]>
            (<["chunks" := Py.str_of_nat (length (Server.b64_chunks data))]>
               ∅))).
Proof.
  unfold Server.meta_text.
  destruct (digits_plain _
              (str_of_nat_digits (length (Server.b64_chunks data)))).
  destruct (digits_plain _ (str_of_nat_digits (length data))).
  destruct (hex_plain _ (hex_of_bytes_chars (Sha256.digest data))).
  now apply parse_meta_fields.
Qed.

End MetaFacts.

Lemma read_meta_text (data : list byte) :
  Client.read_fields (Client.parse_meta (Server.meta_text data))
  = Ok (Client.Fields (Z.of_nat (length (Server.b64_chunks data)))
          (Server.sha256_hex data) (Z.of_nat (length data))).
Proof.
  rewrite parse_meta_text.
  unfold Client.read_fields, Client.subscript, Client.to_int, bind.
  rewrite !lookup_insert_ne by discriminate.
  rewrite lookup_insert_eq, int_str_of_nat.
  rewrite lookup_insert_eq. cbn [default from_option id].
  rewrite lookup_insert_ne by discriminate.
  rewrite lookup_insert_eq. cbn [default from_option id].
  now rewrite int_str_of_nat.
Qed.

(** X4. The metadata text the server builds for a file reads back, on the
    client, as the number of chunks of the file, its digest and its length
    in bytes; the digest has sixty-four lowercase hexadecimal digits. *)
Theorem meta_roundtrip (data : list byte) :
  Client.read_fields (Client.parse_meta (Server.meta_text data))
  = Ok (Client.Fields (Z.of_nat (length (Server.b64_chunks data)))
          (Server.sha256_hex data) (Z.of_nat (length data)))
  /\ String.length (Server.sha256_hex data) = 64
  /\ all_chars is_hex (Server.sha256_hex data) = true.
Proof.
  split; [apply read_meta_text |].
  split; [apply length_hexdigest | apply hex_of_bytes_chars].
Qed.

(** ** Query names on the wire *)

Section WireFacts.

Lemma lstrip_clean_head (cs s : string) :
  clean_head cs s = true -> Py.lstrip_chars cs s = s.
Proof.
  destruct s as [|c s]; [discriminate |].
  cbn [clean_head Py.lstrip_chars]. intros Hc%negb_true_iff. now rewrite Hc.
Qed.

Lemma clean_head_append (cs s t : string) :
  clean_head cs s = true -> clean_head cs (s +:+ t) = true.
Proof. destruct s; [discriminate | trivial]. Qed.

Lemma clean_head_none_of (cs s : string) :
  s <> EmptyString -> none_of cs s = true -> clean_head cs s = true.
Proof.
  destruct s as [|c s]; [congruence |]. intros _.
  unfold none_of. cbn [all_chars clean_head]. now intros [Hc _]%andb_prop.
Qed.

Lemma rev_nonempty (s : string) :
  s <> EmptyString -> String.rev s <> EmptyString.
Proof.
  intros Hs Hrev. apply Hs. rewrite <- (rev_involutive s), Hrev. reflexivity.
Qed.

Lemma clean_head_rev (cs s : string) :
  s <> EmptyString -> none_of cs s = true ->
  clean_head cs (String.rev s) = true.
Proof.
  intros Hs Hnone. apply clean_head_none_of; [now apply rev_nonempty |].
  unfold none_of in *. now rewrite all_chars_rev.
Qed.

(** Stripping takes away one character put after a string whose first and
    last characters are kept. *)
Lemma strip_one_trailing (cs s : string) (d : ascii) :
  Py.mem_char d cs = true ->
  clean_head cs s = true ->
  clean_head cs (String.rev s) = true ->
  Py.strip_chars cs (s +:+ String d EmptyString) = s.
Proof.
  intros Hd Hhead Hlast. unfold Py.strip_chars.
  rewrite (lstrip_clean_head cs (s +:+ String d EmptyString))
    by now apply clean_head_append.
  rewrite rev_append.
  change (String.rev (String d EmptyString)) with (String d EmptyString).
  rewrite append_cons, append_empty_l. cbn [Py.lstrip_chars]. rewrite Hd.
  rewrite (lstrip_clean_head _ _ Hlast). apply rev_involutive.
Qed.

Lemma lower_no_upper (s : string) :
  all_chars (fun c => negb (Py.is_upper c)) s = true -> Py.lower s = s.
Proof.
  induction s as [|c s IH]; [reflexivity |].
  cbn [all_chars Py.lower]. intros [Hc Hs]%andb_prop.
  unfold Py.lower_char. apply negb_true_iff in Hc. now rewrite Hc, IH.
Qed.

Lemma sanitized_facts (name : string) :
  sanitized name = true ->
  name <> EmptyString
  /\ Server.s_name name = name
  /\ none_of "." name = true
  /\ all_chars (fun c => negb (Py.is_upper c)) name = true.
Proof.
  unfold sanitized. intros [Hne Hok]%andb_prop.
  split; [| split; [| split]].
  - intros ->. discriminate Hne.
  - unfold Server.s_name. now rewrite (lower_fixed _ Hok), (keep_ok_fixed _ Hok).
  - revert Hok. apply all_chars_impl. by_all_chars.
  - revert Hok. apply all_chars_impl. by_all_chars.
Qed.

Lemma absolute_zone (y : string) :
  Loopback.absolute (y +:+ Client.ZONE) = y +:+ Server.ZONE.
Proof.
  unfold Loopback.absolute, Py.endswith. rewrite length_append.
  change (String.length Client.ZONE) with 3.
  change (String.length ".") with 1.
  replace (String.length y + 3 - 1) with (String.length y + 2) by lia.
  rewrite drop_append_more.
  change (String.eqb (Py.drop 2 Client.ZONE) ".") with false.
  rewrite andb_false_r, append_assoc. reflexivity.
Qed.

(** The name of a part of a file: in the zone, with a label of two parts,
    the part and the file name. *)
Lemma wire_name_parts (p0 name : string) :
  p0 <> EmptyString ->
  none_of "." p0 = true ->
  all_chars (fun c => negb (Py.is_upper c)) p0 = true ->
  sanitized name = true ->
  wire_name p0 name = (p0 +:+ "." +:+ name +:+ ".") +:+ Server.ZONE
  /\ Py.lower (wire_name p0 name) = wire_name p0 name
  /\ in_zone (wire_name p0 name) = true
  /\ label_parts (wire_name p0 name) = [p0; name].
Proof.
  intros Hp0 Hdot Hup Hname.
  destruct (sanitized_facts name Hname) as (Hne & _ & Hndot & Hnup).
  assert (wire_name p0 name = (p0 +:+ "." +:+ name +:+ ".") +:+ Server.ZONE)
    as Hshape.
  { unfold wire_name. rewrite <- absolute_zone. now rewrite !append_assoc. }
  assert (Py.lower (wire_name p0 name) = wire_name p0 name) as Hlow.
  { rewrite Hshape. apply lower_no_upper.
    rewrite !all_chars_app, Hup, Hnup. reflexivity. }
  split; [exact Hshape |]. split; [exact Hlow |]. split.
  - unfold in_zone. rewrite Hlow, Hshape. apply endswith_append.
  - unfold label_parts. rewrite Hlow, Hshape, drop_last_append.
    rewrite <- !append_assoc.
    rewrite strip_one_trailing.
    + rewrite append_assoc.
      change ("." +:+ name) with (String "." name).
      rewrite split_append by exact Hdot.
      now rewrite split_none_of by exact Hndot.
    + reflexivity.
    + rewrite append_assoc. apply clean_head_append.
      now apply clean_head_none_of.
    + rewrite rev_append. apply clean_head_append.
      now apply clean_head_rev.
Qed.

End WireFacts.

(** ** Serving a file through the loopback *)

Section ServeFacts.

Lemma b2a_is_b64 (v : N) : is_b64 (Base64.b2a v) = true.
Proof.
  unfold Base64.b2a.
  destruct (nth_in_or_default (N.to_nat v) Base64.table_b2a Base64.pad)
    as [Hin | ->]; [| reflexivity].
  assert (List.Forall (fun c => is_b64 c = true) Base64.table_b2a) as Hall
    by (unfold Base64.table_b2a; cbn [String.list_ascii_of_string];
        repeat constructor).
  rewrite List.Forall_forall in Hall. now apply Hall.
Qed.

Lemma b64encode_chars (data : list byte) :
  all_chars is_b64 (Base64.b64encode data) = true.
Proof.
  induction data as [| a | a b | a b c rest IH] using bytes_ind3;
    cbn [Base64.b64encode all_chars]; rewrite ?b2a_is_b64, ?IH; reflexivity.
Qed.

Lemma all_chars_substring (p : ascii -> bool) (s : string) (i n : nat) :
  all_chars p s = true -> all_chars p (String.substring i n s) = true.
Proof.
  revert i n. induction s as [|c s IH]; intros [|i] [|n]; cbn [String.substring all_chars];
    try reflexivity.
  - intros [Hc Hs]%andb_prop. now rewrite Hc, (IH 0 n Hs).
  - intros [_ Hs]%andb_prop. exact (IH i 0 Hs).
  - intros [_ Hs]%andb_prop. exact (IH i (S n) Hs).
Qed.

Lemma b64_chunks_chars (data : list byte) :
  Forall (fun c => all_chars is_b64 c = true) (Server.b64_chunks data).
Proof.
  unfold Server.b64_chunks. apply List.Forall_map, List.Forall_forall.
  intros i _. unfold Py.slice. apply all_chars_substring, b64encode_chars.
Qed.

Lemma render_strip (txt : string) :
  none_of quote txt = true ->
  Py.strip_chars quote (Loopback.render_txt txt) = txt.
Proof.
  intros Hq. unfold Loopback.render_txt. rewrite append_cons.
  now apply strip_wrapped.
Qed.

Lemma meta_text_no_quote (data : list byte) :
  none_of quote (Server.meta_text data) = true.
Proof.
  unfold none_of, Server.meta_text. rewrite !all_chars_app.
  assert (forall s, all_chars is_digit s = true ->
            all_chars (fun c => negb (Py.mem_char c quote)) s = true) as Hd
    by (intros s; apply all_chars_impl; by_all_chars).
  assert (forall s, all_chars is_hex s = true ->
            all_chars (fun c => negb (Py.mem_char c quote)) s = true) as Hh
    by (intros s; apply all_chars_impl; by_all_chars).
  rewrite !(Hd _ (str_of_nat_digits _)).
  unfold Server.sha256_hex, Sha256.hexdigest.
  now rewrite (Hh _ (hex_of_bytes_chars _)).
Qed.

Lemma b64_no_quote (c : string) :
  all_chars is_b64 c = true -> none_of quote c = true.
Proof. apply all_chars_impl. by_all_chars. Qed.

Variable store : gmap string Server.node.

(** A query the resolver answers with [txt] gives [txt] to the client,
    as long as [txt] holds no quote. *)
Lemma queryt_found (x txt : string) (sent : N)
    (files : gmap string (list byte)) :
  Server.resolve store (txt_query sent (Loopback.absolute x))
  = found (txt_query sent (Loopback.absolute x)) txt ->
  none_of quote txt = true ->
  Client.queryt (Loopback.send store) x (Client.World sent files)
  = (Ok txt, Client.World (N.succ sent) files).
Proof.
  intros Hfound Hq.
  rewrite (queryt_answer (Loopback.send store) x _
             (Client.World sent files) _
             (loopback_found store sent x txt Hfound)).
  cbn [Client.files]. fold quote. now rewrite render_strip.
Qed.

(** A query the resolver refuses makes [queryt] raise. *)
Lemma queryt_not_found (x : string) (sent : N)
    (files : gmap string (list byte)) :
  Server.resolve store (txt_query sent (Loopback.absolute x))
  = not_found (txt_query sent (Loopback.absolute x)) ->
  Client.queryt (Loopback.send store) x (Client.World sent files)
  = (Raise RuntimeError, Client.World (N.succ sent) files).
Proof.
  intros Hnot. unfold Client.queryt, Loopback.send. cbn [Client.net].
  fold (txt_query sent (Loopback.absolute x)). rewrite Hnot. reflexivity.
Qed.

Variable name : string.
Hypothesis name_ok : sanitized name = true.

Lemma meta_wire (id : N) :
  Server.resolve store (txt_query id (wire_name "meta" name))
  = let req := txt_query id (wire_name "meta" name) in
    match Server.f_bytes store name with
    | None => not_found req
    | Some data => found req (Server.meta_text data)
    end.
Proof.
  destruct (wire_name_parts "meta" name) as (_ & _ & Hzone & Hparts);
    [discriminate | reflexivity | reflexivity | exact name_ok |].
  rewrite (resolve_two_parts store id _ "meta" name Hzone Hparts).
  cbv zeta. change (String.eqb "meta" "meta") with true. cbv iota.
  now rewrite (proj1 (proj2 (sanitized_facts name name_ok))).
Qed.

Lemma chunk_label_ok (i : nat) :
  "chunk" +:+ Py.str_of_nat i <> EmptyString
  /\ none_of "." ("chunk" +:+ Py.str_of_nat i) = true
  /\ all_chars (fun c => negb (Py.is_upper c))
       ("chunk" +:+ Py.str_of_nat i) = true.
Proof.
  assert (all_chars (fun c => negb (Py.mem_char c ".")) (Py.str_of_nat i)
          = true) as Hdot
    by (generalize (str_of_nat_digits i); apply all_chars_impl; by_all_chars).
  assert (all_chars (fun c => negb (Py.is_upper c)) (Py.str_of_nat i) = true)
    as Hup
    by (generalize (str_of_nat_digits i); apply all_chars_impl; by_all_chars).
  split; [discriminate |]. unfold none_of. rewrite !all_chars_app.
  now rewrite Hdot, Hup.
Qed.

Lemma chunk_wire (id : N) (i : nat) (data : list byte) :
  Server.f_bytes store name = Some data ->
  Server.resolve store
    (txt_query id (wire_name ("chunk" +:+ Py.str_of_nat i) name))
  = let req := txt_query id (wire_name ("chunk" +:+ Py.str_of_nat i) name) in
    match Server.b64_chunks data !! i with
    | Some c => found req c
    | None => not_found req
    end.
Proof.
  intros Hfile.
  destruct (chunk_label_ok i) as (Hne & Hdot & Hup).
  destruct (wire_name_parts _ name Hne Hdot Hup name_ok)
    as (_ & _ & Hzone & Hparts).
  rewrite (resolve_chunk store id _ _ name Hzone Hparts
             (startswith_append "chunk" _)).
  cbv zeta.
  change 5 with (String.length "chunk"). rewrite drop_append.
  rewrite int_str_of_nat.
  rewrite (proj1 (proj2 (sanitized_facts name name_ok))), Hfile.
  rewrite (proj2 (Z.ltb_ge (Z.of_nat i) 0)) by lia. cbn [orb].
  rewrite Nat2Z.id.
  destruct (Server.b64_chunks data !! i) as [c |] eqn:Hc.
  - pose proof (lookup_lt_Some _ _ _ Hc) as Hlt.
    rewrite (proj2 (Z.leb_gt _ _)) by lia.
    now rewrite (nth_lookup_Some _ _ EmptyString _ Hc).
  - pose proof (lookup_ge_None_1 _ _ Hc) as Hge.
    now rewrite (proj2 (Z.leb_le _ _)) by lia.
Qed.

Lemma chunk_query_wire (i : nat) :
  Loopback.absolute (Client.chunk_query i name)
  = wire_name ("chunk" +:+ Py.str_of_nat i) name.
Proof. unfold wire_name, Client.chunk_query. now rewrite append_assoc. Qed.

(** The loop fetches the chunks of the file from index [i] on, one query
    each. *)
Lemma fetch_loop_serves (data : list byte) (k i : nat) (acc : list string)
    (sent : N) (files : gmap string (list byte)) :
  Server.f_bytes store name = Some data ->
  i + k = length (Server.b64_chunks data) ->
  Client.fetch_loop (Loopback.send store) name i k acc
    (Client.World sent files)
  = (Ok (acc ++ drop i (Server.b64_chunks data)),
     Client.World (sent + N.of_nat k)%N files).
Proof.
  intros Hfile. revert i acc sent.
  induction k as [|k IH]; intros i acc sent Hlen.
  - cbn [Client.fetch_loop]. unfold Client.ret.
    rewrite drop_ge by lia. rewrite app_nil_r, N.add_0_r. reflexivity.
  - rewrite fetch_loop_step.
    destruct (lookup_lt_is_Some_2 (Server.b64_chunks data) i ltac:(lia))
      as [c Hc].
    assert (none_of quote c = true) as Hq.
    { apply b64_no_quote.
      pose proof (b64_chunks_chars data) as Hall.
      rewrite Forall_forall in Hall. apply Hall.
      eapply list_elem_of_lookup_2. exact Hc. }
    rewrite (queryt_found _ c); [| | exact Hq].
    + rewrite IH by lia. rewrite <- app_assoc. cbn [app].
      rewrite <- (drop_S _ _ _ Hc). do 2 f_equal. lia.
    + rewrite chunk_query_wire, (chunk_wire sent i data Hfile).
      cbv zeta. now rewrite Hc.
Qed.

End ServeFacts.

(** X5. Through the loopback, for a sanitized, non-empty name that fits
    in a DNS label (at most 63 characters) and a file of the store of
    less than 2^64 bytes (so that every chunk label fits as well, its
    index having at most twenty digits), the fetch succeeds: it sends one
    metadata query and one query per chunk, passes both checks, and
    writes exactly the bytes of the file to the output path, leaving
    every other file as it was. *)
Theorem fetch_serves (store : gmap string Server.node) (name out_path : string)
    (data : list byte) (sent : N) (files : gmap string (list byte)) :
  sanitized name = true ->
  String.length name <= 63 ->
  (N.of_nat (length data) < 2 ^ 64)%N ->
  Server.f_bytes store name = Some data ->
  Client.fetchf (Loopback.send store) name out_path (Client.World sent files)
  = (Ok out_path,
     Client.World
       (N.succ sent + N.of_nat (length (Server.b64_chunks data)))%N
       (<[out_path := data]> files)).
Proof.
  intros Hname _ _ Hfile. rewrite fetchf_stages.
  rewrite (queryt_found store _ (Server.meta_text data)).
  - rewrite read_meta_text.
    cbn [Client.chunk_count Client.expected_sha Client.expected_bytes].
    rewrite Nat2Z.id.
    rewrite (fetch_loop_serves store name Hname data _ 0 [] _ _ Hfile)
      by reflexivity.
    cbn [app]. rewrite drop_0, join_b64_chunks, b64decode_encode.
    rewrite Z.eqb_refl, String.eqb_refl. cbn [negb].
    rewrite !andb_false_r. reflexivity.
  - change (Loopback.absolute ("meta." +:+ name +:+ "." +:+ Client.ZONE))
      with (wire_name "meta" name).
    rewrite (meta_wire store name Hname). cbv zeta. now rewrite Hfile.
  - apply meta_text_no_quote.
Qed.

Lemma fetch_serves_witness :
  Client.fetchf (Loopback.send hello_store) "hello" "out.bin"
    (Client.World 0%N ∅)
  = (Ok "out.bin",
     Client.World
       (N.succ 0 + N.of_nat (length (Server.b64_chunks hello_world)))%N
       (<["out.bin" := hello_world]> ∅)).
Proof.
  apply (fetch_serves hello_store "hello" "out.bin" hello_world 0%N ∅);
    try (vm_compute; reflexivity).
  vm_compute. lia.
Defined.

(** X6. Through the loopback, for a sanitized, non-empty name that fits
    in a DNS label (at most 63 characters) and for which the store has no
    file, the fetch fails on the metadata query: [fetchf] raises after
    that one query, asks for no chunk and writes nothing. *)
Theorem fetch_missing (store : gmap string Server.node)
    (name out_path : string) (sent : N) (files : gmap string (list byte)) :
  sanitized name = true ->
  String.length name <= 63 ->
  Server.f_bytes store name = None ->
  Client.fetchf (Loopback.send store) name out_path (Client.World sent files)
  = (Raise RuntimeError, Client.World (N.succ sent) files).
Proof.
  intros Hname _ Hfile. rewrite fetchf_stages.
  rewrite (queryt_not_found store); [reflexivity |].
  change (Loopback.absolute ("meta." +:+ name +:+ "." +:+ Client.ZONE))
    with (wire_name "meta" name).
  rewrite (meta_wire store name Hname). cbv zeta. now rewrite Hfile.
Qed.

Lemma fetch_missing_witness :
  Client.fetchf (Loopback.send hello_store) "nothing" "out.bin"
    (Client.World 0%N ∅)
  = (Raise RuntimeError, Client.World (N.succ 0) ∅).
Proof.
  apply (fetch_missing hello_store "nothing" "out.bin" 0%N ∅);
    try (vm_compute; reflexivity).
  vm_compute. lia.
Defined.

(** ** More on the resolver *)

(** X1. Every reply echoes the identifier and the question of the request
    and is either the negative reply, with no record, or a positive reply
    with exactly one TXT record. A positive reply is given only to a TXT
    query in the zone, and only in three cases: the label is empty and the
    text is the welcome text; the label is [meta.p1], the store has a file
    for the sanitized [p1] and the text is its metadata; the label is
    [chunkX.p1], [int] reads [X] as a number that is not negative, the
    store has a file for the sanitized [p1] and the text is its chunk at
    that index. Conversely each of the three cases gets its positive
    reply: an in-zone TXT query with the empty label always gets the
    welcome text, one with the label [meta.p1] and a file gets the
    metadata of that file, and one with the label [chunkX.p1], a file and
    an index within its chunks gets that chunk. *)
Theorem resolve_reply_shape (store : gmap string Server.node)
    (req : Server.request) :
  let q := Server.qname (Server.req_q req) in
  let r := Server.resolve store req in
  Server.rep_id r = Server.req_id req
  /\ Server.rep_q r = Server.req_q req
  /\ (r = not_found req \/ exists txt, r = found req txt)
  /\ (forall txt, r = found req txt ->
      in_zone q = true
      /\ Server.qtype (Server.req_q req) = Server.QTYPE_TXT
      /\ ((label_of q = EmptyString /\ txt = Server.welcome)
          \/ (exists p1 data,
                label_parts q = ["meta"; p1]
                /\ Server.f_bytes store (Server.s_name p1) = Some data
                /\ txt = Server.meta_text data)
          \/ (exists p0 p1 data idx,
                label_parts q = [p0; p1]
                /\ p0 <> "meta"
                /\ Py.startswith p0 "chunk" = true
                /\ Py.int (Py.drop 5 p0) = Some idx
                /\ (0 <= idx)%Z
                /\ Server.f_bytes store (Server.s_name p1) = Some data
                /\ Server.b64_chunks data !! Z.to_nat idx = Some txt)))
  /\ (in_zone q = true ->
      Server.qtype (Server.req_q req) = Server.QTYPE_TXT ->
      label_of q = EmptyString ->
      r = found req Server.welcome)
  /\ (forall p1 data,
        in_zone q = true ->
        Server.qtype (Server.req_q req) = Server.QTYPE_TXT ->
        label_parts q = ["meta"; p1] ->
        Server.f_bytes store (Server.s_name p1) = Some data ->
        r = found req (Server.meta_text data))
  /\ (forall p0 p1 data idx txt,
        in_zone q = true ->
        Server.qtype (Server.req_q req) = Server.QTYPE_TXT ->
        label_parts q = [p0; p1] ->
        p0 <> "meta" ->
        Py.startswith p0 "chunk" = true ->
        Py.int (Py.drop 5 p0) = Some idx ->
        (0 <= idx)%Z ->
        Server.f_bytes store (Server.s_name p1) = Some data ->
        Server.b64_chunks data !! Z.to_nat idx = Some txt ->
        r = found req txt).
Proof.
  intros q r.
  assert (forall p0 p1,
            in_zone q = true ->
            Server.qtype (Server.req_q req) = Server.QTYPE_TXT ->
            label_parts q = [p0; p1] ->
            req = txt_query (Server.req_id req) q
            /\ r = Server.resolve store (txt_query (Server.req_id req) q))
    as Htxt.
  { intros p0 p1 _ Htype _. subst r q. destruct req as [id [qn qt]].
    cbn [Server.req_q Server.req_id Server.qname Server.qtype] in *.
    subst qt. split; reflexivity. }
  assert ((r = not_found req
           /\ ~ (in_zone q = true
                 /\ Server.qtype (Server.req_q req) = Server.QTYPE_TXT
                 /\ label_of q = EmptyString))
          \/ exists txt, r = found req txt
               /\ in_zone q = true
               /\ Server.qtype (Server.req_q req) = Server.QTYPE_TXT
               /\ ((label_of q = EmptyString /\ txt = Server.welcome)
                   \/ (exists p1 data,
                         label_parts q = ["meta"; p1]
                         /\ Server.f_bytes store (Server.s_name p1)
                            = Some data
                         /\ txt = Server.meta_text data)
                   \/ (exists p0 p1 data idx,
                         label_parts q = [p0; p1]
                         /\ p0 <> "meta"
                         /\ Py.startswith p0 "chunk" = true
                         /\ Py.int (Py.drop 5 p0) = Some idx
                         /\ (0 <= idx)%Z
                         /\ Server.f_bytes store (Server.s_name p1)
                            = Some data
                         /\ Server.b64_chunks data !! Z.to_nat idx
                            = Some txt))) as Hcases.
  { subst r q. unfold Server.resolve, in_zone, label_parts.
    fold (label_of (Server.qname (Server.req_q req))).
    destruct (Py.endswith _ Server.ZONE) eqn:Hzone; cbn [negb];
      [| left; split; [reflexivity | now intros [? _]]].
    destruct (N.eqb_spec (Server.qtype (Server.req_q req)) Server.QTYPE_TXT)
      as [Htype | Htype]; cbn [negb];
      [| left; split; [reflexivity | now intros (_ & ? & _)]].
    destruct (String.eqb_spec (label_of (Server.qname (Server.req_q req)))
                EmptyString) as [Hlabel | Hlabel].
    { right. exists Server.welcome. repeat split; auto. }
    assert (forall P : Prop,
              ~ (P /\ Server.qtype (Server.req_q req) = Server.QTYPE_TXT
                 /\ label_of (Server.qname (Server.req_q req)) = EmptyString))
      as Hno by (intros P (_ & _ & ?); contradiction).
    destruct (Py.split "." _) as [|p0 [|p1 [|p2 rest]]] eqn:Hparts;
      cbn [length Nat.eqb andb nth];
      try (left; split; [reflexivity | apply Hno]).
    destruct (String.eqb_spec p0 "meta") as [-> | Hmeta].
    - destruct (Server.f_bytes store (Server.s_name p1)) as [data |] eqn:Hf;
        [| left; split; [reflexivity | apply Hno]].
      right. eexists. split; [reflexivity |]. split; [reflexivity |].
      split; [exact Htype |]. right; left. exists p1, data. auto.
    - destruct (Py.startswith p0 "chunk") eqn:Hchunk;
        [| left; split; [reflexivity | apply Hno]].
      destruct (Py.int (Py.drop 5 p0)) as [idx |] eqn:Hint;
        [| left; split; [reflexivity | apply Hno]].
      destruct (Server.f_bytes store (Server.s_name p1)) as [data |] eqn:Hf;
        [| left; split; [reflexivity | apply Hno]].
      destruct (Z.ltb_spec idx 0) as [_ | Hlo]; cbn [orb];
        [left; split; [reflexivity | apply Hno] |].
      destruct (Z.leb_spec (Z.of_nat (length (Server.b64_chunks data))) idx)
        as [_ | Hhi]; [left; split; [reflexivity | apply Hno] |].
      destruct (lookup_lt_is_Some_2 (Server.b64_chunks data) (Z.to_nat idx)
                  ltac:(lia)) as [c Hc].
      right. exists c. rewrite (nth_lookup_Some _ _ EmptyString _ Hc).
      split; [reflexivity |]. split; [reflexivity |].
      split; [exact Htype |]. right; right.
      exists p0, p1, data, idx. auto 10. }
  split; [| split; [| split; [| split; [| split; [| split]]]]].
  - destruct Hcases as [[-> _] | (txt & -> & _)]; reflexivity.
  - destruct Hcases as [[-> _] | (txt & -> & _)]; reflexivity.
  - destruct Hcases as [[-> _] | (txt & -> & _)]; eauto.
  - intros txt Hr. destruct Hcases as [[Hn _] | (txt' & Hf & Hrest)].
    + rewrite Hn in Hr. discriminate Hr.
    + rewrite Hf in Hr. injection Hr as <-. exact Hrest.
  - intros Hzone Htype Hlabel.
    destruct Hcases as [[_ Hno] | (txt & Hf & _ & _ & Hwhich)].
    + destruct Hno. auto.
    + rewrite Hf. f_equal.
      destruct Hwhich as [[_ ->] | [(p1 & data & Hparts & _)
                                   | (p0 & p1 & data & idx & Hparts & _)]];
        [reflexivity | |];
        unfold label_parts in Hparts; fold (label_of q) in Hparts;
        rewrite Hlabel in Hparts; discriminate Hparts.
  - intros p1 data Hzone Htype Hparts Hfile.
    destruct (Htxt _ _ Hzone Htype Hparts) as [Hreq ->].
    rewrite (resolve_two_parts store _ q "meta" p1 Hzone Hparts). cbv zeta.
    rewrite <- Hreq. cbn [String.eqb Ascii.eqb Bool.eqb]. now rewrite Hfile.
  - intros p0 p1 data idx txt Hzone Htype Hparts Hmeta Hchunk Hint Hlo Hfile
      Hc.
    destruct (Htxt _ _ Hzone Htype Hparts) as [Hreq ->].
    rewrite (resolve_two_parts store _ q p0 p1 Hzone Hparts). cbv zeta.
    rewrite <- Hreq.
    destruct (String.eqb_spec p0 "meta") as [? | _]; [contradiction |].
    rewrite Hchunk, Hint, Hfile.
    pose proof (lookup_lt_Some _ _ _ Hc) as Hlt.
    destruct (Z.ltb_spec idx 0) as [? | _]; [lia |].
    destruct (Z.leb_spec (Z.of_nat (length (Server.b64_chunks data))) idx)
      as [? | _]; [lia |].
    cbn [orb]. now rewrite (nth_lookup_Some _ _ EmptyString _ Hc).
Qed.

(** The meta reply of the scenario is a positive reply of the second
    kind; the query for the zone itself gets the welcome text. *)
Lemma resolve_reply_shape_witness :
  (in_zone "meta.hello.lab." = true
   /\ Server.QTYPE_TXT = Server.QTYPE_TXT
   /\ ((label_of "meta.hello.lab." = EmptyString
        /\ Server.meta_text hello_world = Server.welcome)
       \/ (exists p1 data,
             label_parts "meta.hello.lab." = ["meta"; p1]
             /\ Server.f_bytes hello_store (Server.s_name p1) = Some data
             /\ Server.meta_text hello_world = Server.meta_text data)
       \/ (exists p0 p1 data idx,
             label_parts "meta.hello.lab." = [p0; p1]
             /\ p0 <> "meta"
             /\ Py.startswith p0 "chunk" = true
             /\ Py.int (Py.drop 5 p0) = Some idx
             /\ (0 <= idx)%Z
             /\ Server.f_bytes hello_store (Server.s_name p1) = Some data
             /\ Server.b64_chunks data !! Z.to_nat idx
                = Some (Server.meta_text hello_world))))
  /\ Server.resolve hello_store (txt_query 1 "lab.")
     = found (txt_query 1 "lab.") Server.welcome.
Proof.
  split.
  - apply (proj1 (proj2 (proj2 (proj2
             (resolve_reply_shape hello_store
                (txt_query 1 "meta.hello.lab.")))))
             (Server.meta_text hello_world)).
    vm_compute. reflexivity.
  - apply (proj1 (proj2 (proj2 (proj2 (proj2
             (resolve_reply_shape hello_store (txt_query 1 "lab.")))))));
      reflexivity.
Defined.

(** X2. The resolver does not look at the case of the letters of the
    query name: two queries of one record type whose names differ only in
    case get the same status and the same records. *)
Theorem resolve_case_insensitive (store : gmap string Server.node)
    (id1 id2 : N) (q1 q2 : string) (t : N) :
  Py.lower q1 = Py.lower q2 ->
  let r1 := Server.resolve store (Server.Request id1 (Server.Question q1 t)) in
  let r2 := Server.resolve store (Server.Request id2 (Server.Question q2 t)) in
  Server.rep_rcode r1 = Server.rep_rcode r2
  /\ Server.rep_rr r1 = Server.rep_rr r2.
Proof.
  intros Hlow r1 r2. subst r1 r2. unfold Server.resolve.
  cbn [Server.req_q Server.req_id Server.qname Server.qtype].
  rewrite Hlow.
  repeat match goal with
         | |- context [if ?c then _ else _] => destruct c
         | |- context [match ?o with Some _ => _ | None => _ end] =>
             destruct o
         end;
    split; reflexivity.
Qed.

Lemma resolve_case_insensitive_witness :
  Server.rep_rcode
    (Server.resolve hello_store
       (Server.Request 1 (Server.Question "META.Hello.LAB." 16)))
  = Server.rep_rcode
      (Server.resolve hello_store
         (Server.Request 2 (Server.Question "meta.hello.lab." 16)))
  /\ Server.rep_rr
       (Server.resolve hello_store
          (Server.Request 1 (Server.Question "META.Hello.LAB." 16)))
     = Server.rep_rr
         (Server.resolve hello_store
            (Server.Request 2 (Server.Question "meta.hello.lab." 16))).
Proof.
  apply (resolve_case_insensitive hello_store 1 2
           "META.Hello.LAB." "meta.hello.lab." 16).
  reflexivity.
Defined.

Lemma read_file_insert_ne (store : gmap string Server.node)
    (k e : string) (v : Server.node) :
  k <> e ->
  Server.read_file (<[k := v]> store) e = Server.read_file store e.
Proof.
  intros Hne. unfold Server.read_file. destruct e; [reflexivity |].
  now rewrite lookup_insert_ne.
Qed.

Lemma read_file_delete_ne (store : gmap string Server.node) (k e : string) :
  k <> e ->
  Server.read_file (delete k store) e = Server.read_file store e.
Proof.
  intros Hne. unfold Server.read_file. destruct e; [reflexivity |].
  now rewrite lookup_delete_ne.
Qed.

(** X3. The reply to a query depends on three entries of the store at
    most: the requested name [n], [n.bin] and [n.txt]. Two stores that
    agree on these give the same reply; in particular, adding, replacing
    or removing any other entry changes nothing. *)
Theorem resolve_reads_three_entries (store store' : gmap string Server.node)
    (req : Server.request) :
  let n := requested_name (Server.qname (Server.req_q req)) in
  (Server.read_file store n = Server.read_file store' n ->
   Server.read_file store (n +:+ ".bin")
   = Server.read_file store' (n +:+ ".bin") ->
   Server.read_file store (n +:+ ".txt")
   = Server.read_file store' (n +:+ ".txt") ->
   Server.resolve store req = Server.resolve store' req)
  /\ (forall k v, k <> n -> k <> n +:+ ".bin" -> k <> n +:+ ".txt" ->
      Server.resolve (<[k := v]> store) req = Server.resolve store req
      /\ Server.resolve (delete k store) req = Server.resolve store req).
Proof.
  intros n.
  assert (forall st st' : gmap string Server.node,
            Server.read_file st n = Server.read_file st' n ->
            Server.read_file st (n +:+ ".bin")
            = Server.read_file st' (n +:+ ".bin") ->
            Server.read_file st (n +:+ ".txt")
            = Server.read_file st' (n +:+ ".txt") ->
            Server.resolve st req = Server.resolve st' req) as Hagree.
  { intros st st' H1 H2 H3. apply resolve_store_local. fold n.
    unfold Server.f_bytes, Server.candidates. cbn [Server.first_file].
    now rewrite H1, H2, H3. }
  split; [exact (Hagree store store') |].
  intros k v H1 H2 H3. split; apply Hagree;
    auto using read_file_insert_ne, read_file_delete_ne.
Qed.

Lemma resolve_reads_three_entries_witness :
  Server.resolve
    (<["other" := Server.RegularFile []]> hello_store)
    (txt_query 1 "meta.hello.lab.")
  = Server.resolve hello_store (txt_query 1 "meta.hello.lab.").
Proof.
  apply (proj2 (resolve_reads_three_entries hello_store hello_store
                  (txt_query 1 "meta.hello.lab.")));
    vm_compute; discriminate.
Defined.

(** ** More on the chunk sequence *)

Section MoreChunkFacts.

Lemma range_from_lookup (fuel start stop step i x : nat) :
  Py.range_from fuel start stop step !! i = Some x ->
  x = start + i * step /\ x < stop.
Proof.
  revert start i. induction fuel as [|fuel IH]; intros start i;
    cbn [Py.range_from]; [discriminate |].
  destruct (Nat.ltb_spec start stop) as [Hlt | _]; [| discriminate].
  destruct i as [|i]; cbn [lookup list_lookup].
  - intros [= <-]. split; [lia | exact Hlt].
  - intros Hx. apply IH in Hx as [-> Hx]. split; [lia | exact Hx].
Qed.

Lemma length_b64encode (data : list byte) :
  String.length (Base64.b64encode data) = 4 * ((length data + 2) / 3).
Proof.
  induction data as [| a | a b | a b c rest IH] using bytes_ind3;
    try reflexivity.
  cbn [Base64.b64encode String.length length]. rewrite IH.
  replace (S (S (S (length rest))) + 2) with ((length rest + 2) + 1 * 3)
    by lia.
  rewrite Nat.div_add by lia. lia.
Qed.

End MoreChunkFacts.

(** X7. The chunk at index [i] is the slice of the base64 text of the
    file that starts at character [180 i] and holds at most 180
    characters; it holds exactly 180 unless it is the last chunk, never
    more, never none, and only characters of the base64 alphabet or the
    padding. *)
Theorem chunk_is_slice (data : list byte) (i : nat) (c : string) :
  Server.b64_chunks data !! i = Some c ->
  c = String.substring (180 * i) 180 (Base64.b64encode data)
  /\ 1 <= String.length c <= 180
  /\ (S i < length (Server.b64_chunks data) -> String.length c = 180)
  /\ all_chars is_b64 c = true.
Proof.
  intros Hc.
  assert (c = String.substring (180 * i) 180 (Base64.b64encode data)
          /\ 180 * i < String.length (Base64.b64encode data)) as [Hslice Hlt].
  { unfold Server.b64_chunks in Hc. cbv zeta in Hc.
    rewrite list_lookup_fmap in Hc.
    destruct (Py.range 0 _ Server.CHUNK_CHARS !! i) as [x |] eqn:Hx;
      [| discriminate].
    cbn [fmap option_fmap option_map] in Hc. injection Hc as <-.
    apply range_from_lookup in Hx as [-> Hx].
    rewrite slice_width. unfold Server.CHUNK_CHARS in *.
    split; [f_equal; lia | lia]. }
  pose proof (b64_chunks_chars data) as Hall.
  rewrite Forall_forall in Hall.
  split; [exact Hslice |]. split; [| split].
  - rewrite Hslice, length_substring. lia.
  - intros Hnext. rewrite Hslice, length_substring.
    destruct (lookup_lt_is_Some_2 _ _ Hnext) as [c' Hc'].
    unfold Server.b64_chunks in Hc'. cbv zeta in Hc'.
    rewrite list_lookup_fmap in Hc'.
    destruct (Py.range 0 _ Server.CHUNK_CHARS !! S i) as [x |] eqn:Hx;
      [| discriminate].
    apply range_from_lookup in Hx as [-> Hx].
    unfold Server.CHUNK_CHARS in Hx. lia.
  - apply Hall. eapply list_elem_of_lookup_2. exact Hc.
Qed.

Lemma chunk_is_slice_witness :
  "aGVsbG8gd29ybGQ="
  = String.substring (180 * 0) 180 (Base64.b64encode hello_world).
Proof.
  apply (chunk_is_slice hello_world 0 "aGVsbG8gd29ybGQ=").
  vm_compute. reflexivity.
Defined.

(** X8. A file of [n] bytes has a base64 text of [4 ceil(n/3)] characters
    and therefore [ceil(4 ceil(n/3) / 180)] chunks: the number of chunk
    queries a fetch needs is fixed by the length of the file alone. *)
Theorem chunk_count_by_length (data : list byte) :
  String.length (Base64.b64encode data) = 4 * ceil_div (length data) 3
  /\ length (Server.b64_chunks data)
     = ceil_div (4 * ceil_div (length data) 3) 180.
Proof.
  assert (ceil_div (length data) 3 = (length data + 2) / 3) as Hceil.
  { unfold ceil_div.
    pose proof (Nat.div_mod_eq (length data) 3) as Hdm.
    pose proof (Nat.mod_upper_bound (length data) 3 ltac:(lia)) as Hub.
    destruct (Nat.eqb_spec (length data mod 3) 0) as [Hz | Hnz].
    - apply (Nat.div_unique (length data + 2) 3 _ 2); lia.
    - apply (Nat.div_unique (length data + 2) 3 _ (length data mod 3 - 1));
        lia. }
  rewrite Hceil, <- length_b64encode.
  split; [reflexivity | apply length_b64_chunks].
Qed.

(** X9. Two byte sequences with the same chunks are the same: the chunk
    sequence determines the file. *)
Theorem b64_chunks_injective (a b : list byte) :
  Server.b64_chunks a = Server.b64_chunks b -> a = b.
Proof.
  intros Heq.
  assert (Ok a = Ok b) as Hab; [| now injection Hab].
  rewrite <- (b64decode_encode a), <- (b64decode_encode b).
  now rewrite <- (join_b64_chunks a), <- (join_b64_chunks b), Heq.
Qed.

Lemma b64_chunks_injective_witness : hello_world = hello_world.
Proof. apply (b64_chunks_injective hello_world hello_world). reflexivity. Defined.

(** ** More on the metadata *)

Section ParseFacts.

Lemma split_nonempty (sep : ascii) (s : string) : Py.split sep s <> [].
Proof.
  destruct s as [|c s]; [discriminate |]. cbn [Py.split].
  destruct (Ascii.eqb c sep); [discriminate |].
  destruct (Py.split sep s); discriminate.
Qed.

(** Splitting a text in which a separator stands between [s] and [t]. *)
Lemma split_at_separator (sep : ascii) (s t : string) :
  Py.split sep (s +:+ String sep t) = Py.split sep s ++ Py.split sep t.
Proof.
  induction s as [|c s IH].
  - rewrite append_empty_l. cbn [Py.split]. now rewrite Ascii.eqb_refl.
  - rewrite append_cons. cbn [Py.split]. rewrite IH.
    destruct (Ascii.eqb c sep); [reflexivity |].
    pose proof (split_nonempty sep s) as Hne.
    destruct (Py.split sep s); [congruence | reflexivity].
Qed.

End ParseFacts.

(** X10. Reading a metadata text goes segment by segment, from left to
    right. A last segment without [=] is ignored; a last segment [k=v]
    sets the key [k], stripped, to the value [v], stripped, whatever the
    segments before it say: of two segments for one key, the later
    wins. *)
Theorem parse_meta_append (meta seg : string) :
  none_of ";" seg = true ->
  Client.parse_meta (meta +:+ String ";" seg)
  = match Py.split_once "=" seg with
    | Some (k, v) => <[Py.strip k := Py.strip v]> (Client.parse_meta meta)
    | None => Client.parse_meta meta
    end
  /\ (Py.split_once "=" seg = None ->
      Client.parse_meta (meta +:+ String ";" seg) = Client.parse_meta meta)
  /\ (forall k v, Py.split_once "=" seg = Some (k, v) ->
      Client.parse_meta (meta +:+ String ";" seg) !! Py.strip k
      = Some (Py.strip v)).
Proof.
  intros Hseg.
  assert (Client.parse_meta (meta +:+ String ";" seg)
          = match Py.split_once "=" seg with
            | Some (k, v) =>
                <[Py.strip k := Py.strip v]> (Client.parse_meta meta)
            | None => Client.parse_meta meta
            end) as Hstep.
  { unfold Client.parse_meta.
    rewrite split_at_separator, (split_none_of ";" seg Hseg).
    now rewrite fold_left_app. }
  split; [exact Hstep |]. split.
  - intros Hnone. now rewrite Hstep, Hnone.
  - intros k v Hkv. rewrite Hstep, Hkv. apply lookup_insert_eq.
Qed.

Lemma parse_meta_append_witness :
  Client.parse_meta ("chunks=1" +:+ String ";" "chunks = 2 ") !! Py.strip "chunks "
  = Some (Py.strip " 2 ").
Proof.
  apply (proj2 (proj2 (parse_meta_append "chunks=1" "chunks = 2 "
                         ltac:(reflexivity)))).
  reflexivity.
Defined.

(** ** More on sanitized names *)

Section AliasFacts.

Lemma keep_ok_append (s t : string) :
  Server.keep_ok (s +:+ t) = Server.keep_ok s +:+ Server.keep_ok t.
Proof.
  induction s as [|c s IH]; [reflexivity |].
  rewrite !append_cons. cbn [Server.keep_ok].
  destruct (Py.mem_char c Server.ok); [| exact IH].
  now rewrite append_cons, IH.
Qed.

Lemma s_name_append (s t : string) :
  Server.s_name (s +:+ t) = Server.s_name s +:+ Server.s_name t.
Proof. unfold Server.s_name. now rewrite lower_append, keep_ok_append. Qed.

End AliasFacts.

(** X11. Sanitizing works character by character: the name of a
    concatenation is the concatenation of the names, the case of letters
    does not matter, and a character that is not kept can be put in or
    taken out anywhere without changing the name. Distinct raw names can
    therefore ask for the same file. *)
Theorem s_name_aliases (a b : string) (c : ascii) :
  Server.s_name (a +:+ b) = Server.s_name a +:+ Server.s_name b
  /\ Server.s_name (Py.lower a) = Server.s_name a
  /\ (Py.mem_char (Py.lower_char c) Server.ok = false ->
      Server.s_name (a +:+ String c b) = Server.s_name (a +:+ b)).
Proof.
  split; [apply s_name_append |]. split.
  - unfold Server.s_name. now rewrite lower_idempotent.
  - intros Hc. rewrite !s_name_append. f_equal.
    unfold Server.s_name. cbn [Py.lower Server.keep_ok]. now rewrite Hc.
Qed.

Lemma s_name_aliases_witness :
  Server.s_name ("hel" +:+ String "/" "lo") = Server.s_name ("hel" +:+ "lo").
Proof.
  apply (proj2 (proj2 (s_name_aliases "hel" "lo" "/"))). reflexivity.
Defined.

(** ** Plain chunk indices *)

Section PlainIndexFacts.

Lemma all_digits_chars (s : string) :
  all_digits s = all_chars is_digit s.
Proof.
  induction s as [|c s IH]; [reflexivity |].
  cbn [all_digits all_chars]. unfold is_digit.
  destruct (Py.digit_val c); [exact IH | reflexivity].
Qed.

Lemma digit_val_range (c : ascii) (d : Z) :
  Py.digit_val c = Some d -> (0 <= d <= 9)%Z.
Proof.
  unfold Py.digit_val.
  destruct (Nat.leb_spec 48 (nat_of_ascii c)); cbn [andb]; [| discriminate].
  destruct (Nat.leb_spec (nat_of_ascii c) 57); [| discriminate].
  intros [= <-]. lia.
Qed.

Lemma int_digits_plain (s : string) (acc : Z) (b : bool) :
  all_digits s = true -> (0 <= acc)%Z -> s <> EmptyString \/ b = true ->
  exists z, Py.int_digits s acc b = Some z /\ (0 <= z)%Z.
Proof.
  revert acc b. induction s as [|c s IH]; intros acc b Hall Hacc Hne.
  - destruct Hne as [Hne | ->]; [congruence |]. exists acc. now split.
  - cbn [all_digits] in Hall. cbn [Py.int_digits].
    destruct (Py.digit_val c) as [d |] eqn:Hd; [| discriminate].
    pose proof (digit_val_range c d Hd).
    apply IH; [exact Hall | lia | now right].
Qed.

Lemma int_head_digit (c : ascii) (s : string) :
  is_digit c = true ->
  Py.strip_chars Py.int_space (String c s) = String c s ->
  Py.int (String c s) = Py.int_digits (String c s) 0%Z false.
Proof.
  intros Hc Hstrip. unfold Py.int. rewrite Hstrip.
  destruct c as [[] [] [] [] [] [] [] []]; try discriminate Hc; reflexivity.
Qed.

(** [int] reads a plain digit string as a non-negative number. *)
Lemma int_plain_digits (s : string) :
  plain_digits s = true -> exists z, Py.int s = Some z /\ (0 <= z)%Z.
Proof.
  unfold plain_digits. intros [Hne Hall]%andb_prop.
  destruct s as [|c s]; [discriminate |].
  pose proof Hall as Hchars. rewrite all_digits_chars in Hchars.
  rewrite int_head_digit.
  - apply int_digits_plain; [exact Hall | lia | now left].
  - cbn [all_chars] in Hchars. now apply andb_prop in Hchars as [Hc _].
  - apply strip_none_of.
    exact (all_chars_impl _ _ _ digit_not_int_space Hchars).
Qed.

End PlainIndexFacts.

(** X12. When the index part of a chunk label is a plain digit string,
    leading zeros allowed, it is never refused as malformed: it is read
    as a natural number [i], and the reply is the chunk at [i] of the
    requested file, or the negative reply when the file has no such
    chunk. *)
Theorem chunk_plain_index (store : gmap string Server.node) (id : N)
    (q p0 p1 : string) (data : list byte) :
  in_zone q = true ->
  label_parts q = [p0; p1] ->
  Py.startswith p0 "chunk" = true ->
  plain_digits (Py.drop 5 p0) = true ->
  Server.f_bytes store (Server.s_name p1) = Some data ->
  exists i : nat,
    Py.int (Py.drop 5 p0) = Some (Z.of_nat i)
    /\ Server.resolve store (txt_query id q)
       = match Server.b64_chunks data !! i with
         | Some c => found (txt_query id q) c
         | None => not_found (txt_query id q)
         end.
Proof.
  intros Hzone Hparts Hchunk Hplain Hfile.
  destruct (int_plain_digits _ Hplain) as (z & Hint & Hz).
  exists (Z.to_nat z). rewrite Z2Nat.id by exact Hz.
  split; [exact Hint |].
  rewrite (resolve_chunk store id q p0 p1 Hzone Hparts Hchunk).
  cbv zeta. rewrite Hint, Hfile.
  rewrite (proj2 (Z.ltb_ge z 0)) by lia. cbn [orb].
  destruct (Server.b64_chunks data !! Z.to_nat z) as [c |] eqn:Hc.
  - pose proof (lookup_lt_Some _ _ _ Hc) as Hlt.
    rewrite (proj2 (Z.leb_gt _ _)) by lia.
    now rewrite (nth_lookup_Some _ _ EmptyString _ Hc).
  - pose proof (lookup_ge_None_1 _ _ Hc) as Hge.
    now rewrite (proj2 (Z.leb_le _ _)) by lia.
Qed.

Lemma chunk_plain_index_witness :
  exists i : nat,
    Py.int (Py.drop 5 "chunk007") = Some (Z.of_nat i)
    /\ Server.resolve hello_store (txt_query 1 "chunk007.hello.lab.")
       = match Server.b64_chunks hello_world !! i with
         | Some c => found (txt_query 1 "chunk007.hello.lab.") c
         | None => not_found (txt_query 1 "chunk007.hello.lab.")
         end.
Proof.
  apply (chunk_plain_index hello_store 1 "chunk007.hello.lab."
           "chunk007" "hello" hello_world);
    vm_compute; reflexivity.
Defined.

(** ** More on the client *)

Section MoreClientFacts.

Context {Net : Type}.
Variable send : string -> Net -> option Client.packet * Net.

Lemma fetch_loop_length (name : string) (k i : nat) (acc chunks : list string)
    (w w' : Client.world) :
  Client.fetch_loop send name i k acc w = (Ok chunks, w') ->
  length chunks = length acc + k.
Proof.
  revert i acc w. induction k as [|k IH]; intros i acc w.
  - intros [= <- _]. lia.
  - rewrite fetch_loop_step.
    destruct (Client.queryt send (Client.chunk_query i name) w)
      as [[c | e] w1]; [| discriminate].
    intros Hloop. apply IH in Hloop. rewrite length_app in Hloop.
    cbn [length] in Hloop. lia.
Qed.

Lemma queryt_traced (q : string) (w w' : Client.world) (r : result string) :
  Client.queryt (traced send) q w = (r, w') ->
  exists p,
    snd (Client.net w') = snd (Client.net w) ++ [(q, p)]
    /\ is_ok r = answered p.
Proof.
  unfold Client.queryt, traced. cbn [fst snd].
  exists (fst (send q (fst (Client.net w)))). revert H.
  destruct (fst (send q (fst (Client.net w)))) as [pkt |]; cbn [answered].
  - destruct (N.eqb (Client.p_rcode pkt) 0);
      destruct (length (Client.p_rr pkt) =? 0); cbn [negb orb andb];
      intros [= <- <-]; split; reflexivity.
  - intros [= <- <-]. split; reflexivity.
Qed.

(** The loop asks for the chunks from index [i] on, in ascending order,
    each once, and stops at the first query that is not answered. *)
Lemma fetch_loop_traced (name : string) (k i : nat) (acc : list string)
    (w w' : Client.world) (r : result (list string)) :
  Client.fetch_loop (traced send) name i k acc w = (r, w') ->
  exists ps,
    length ps <= k
    /\ snd (Client.net w')
       = snd (Client.net w)
         ++ combine (map (fun i => Client.chunk_query i name)
                       (seq i (length ps))) ps
    /\ (forall ps' p, ps = ps' ++ [p] ->
        Forall (fun p => answered p = true) ps')
    /\ (is_ok r = true ->
        length ps = k /\ Forall (fun p => answered p = true) ps)
    /\ (is_ok r = false ->
        exists ps' p, ps = ps' ++ [p] /\ answered p = false).
Proof.
  revert i acc w. induction k as [|k IH]; intros i acc w.
  - intros [= <- <-]. exists []. cbn [length seq map combine].
    rewrite app_nil_r. repeat split; auto.
    + intros [|? ?] p; discriminate.
    + discriminate.
  - rewrite fetch_loop_step.
    destruct (Client.queryt (traced send) (Client.chunk_query i name) w)
      as [[c | e] w1] eqn:Hq;
      destruct (queryt_traced _ _ _ _ Hq) as (p & Hlog & Hp);
      cbn [is_ok] in Hp.
    + intros Hloop.
      apply IH in Hloop as (ps & Hlen & Hlog' & Hinit & Hok & Hfail).
      exists (p :: ps). cbn [length seq map combine].
      split; [lia |]. split; [| split; [| split]].
      * rewrite Hlog', Hlog, <- app_assoc. reflexivity.
      * intros [|p' ps'] q; cbn [app].
        { intros _. constructor. }
        intros [= <- ->]. constructor; [now symmetry |]. now apply (Hinit ps' q).
      * intros Hr. destruct (Hok Hr) as [-> Hall].
        split; [reflexivity |]. constructor; [now symmetry | exact Hall].
      * intros Hr. destruct (Hfail Hr) as (ps' & q & -> & Hq').
        exists (p :: ps'), q. split; [reflexivity | exact Hq'].
    + intros [= <- <-]. exists [p]. cbn [length seq map combine].
      split; [lia |]. split; [exact Hlog |]. split; [| split].
      * intros [|p' [|? ?]] q; cbn [app]; try discriminate.
        intros _. constructor.
      * discriminate.
      * intros _. exists [], p. split; [reflexivity | now symmetry].
Qed.

End MoreClientFacts.

(** X13. Whatever the transport answers, [fetchf] sends the metadata
    query first and then the chunk queries for the indices 0, 1, 2, ... in
    ascending order, each once, and sends nothing after a failure: no
    chunk query follows a metadata query that was not answered or whose
    text could not be read, and every chunk query that is followed by
    another one was answered. A last query that was not answered makes
    the fetch fail; when the fetch succeeds every query was answered and
    there were exactly as many chunk queries as the metadata announced. *)
Theorem fetchf_query_order {Net : Type}
    (send : string -> Net -> option Client.packet * Net)
    (name out_path : string) (w w' : Client.world) (r : result string) :
  Client.fetchf (traced send) name out_path w = (r, w') ->
  let meta_q := "meta." +:+ name +:+ "." +:+ Client.ZONE in
  exists p0 ps,
    snd (Client.net w')
    = snd (Client.net w)
      ++ (meta_q, p0)
         :: combine (map (fun i => Client.chunk_query i name)
                       (seq 0 (length ps))) ps
    /\ (answered p0 = false -> ps = [] /\ is_ok r = false)
    /\ (forall meta_txt w1 e,
          Client.queryt (traced send) meta_q w = (Ok meta_txt, w1) ->
          Client.read_fields (Client.parse_meta meta_txt) = Raise e ->
          ps = [] /\ is_ok r = false)
    /\ (forall ps' p, ps = ps' ++ [p] ->
        Forall (fun p => answered p = true) ps'
        /\ (answered p = false -> is_ok r = false))
    /\ (is_ok r = true ->
        answered p0 = true
        /\ Forall (fun p => answered p = true) ps
        /\ exists meta_txt w1 f,
             Client.queryt (traced send) meta_q w = (Ok meta_txt, w1)
             /\ Client.read_fields (Client.parse_meta meta_txt) = Ok f
             /\ length ps = Z.to_nat (Client.chunk_count f)).
Proof.
  intros Hrun meta_q. rewrite fetchf_stages in Hrun. fold meta_q in Hrun.
  destruct (Client.queryt (traced send) meta_q w)
    as [[meta_txt | e0] w1] eqn:Hq;
    destruct (queryt_traced _ _ _ _ _ Hq) as (p0 & Hlog1 & Hp0);
    cbn [is_ok] in Hp0.
  2:{ injection Hrun as <- <-. exists p0, []. cbn [length seq map combine].
      split; [exact Hlog1 |]. repeat split; try discriminate; auto.
      all: destruct ps'; discriminate. }
  destruct (Client.read_fields (Client.parse_meta meta_txt)) as [f | e1] eqn:Hm.
  2:{ injection Hrun as <- <-. exists p0, []. cbn [length seq map combine].
      split; [exact Hlog1 |]. repeat split; try discriminate; auto;
        try congruence.
      all: destruct ps'; discriminate. }
  destruct (Client.fetch_loop (traced send) name 0 _ [] w1)
    as [[chunks | e2] w2] eqn:Hl;
    destruct (fetch_loop_traced _ _ _ _ _ _ _ _ Hl)
      as (ps & _ & Hlog2 & Hinit & Hok & Hfail);
    cbn [is_ok] in Hok, Hfail.
  2:{ injection Hrun as <- <-. exists p0, ps.
      split; [rewrite Hlog2, Hlog1, <- app_assoc; reflexivity |].
      split; [congruence |]. split; [intros ? ? ? [= <- <-]; congruence |].
      split; [| discriminate].
      intros ps' p Hps. split; [now apply (Hinit ps' p) | reflexivity]. }
  destruct (Hok eq_refl) as [Hcount Hall].
  assert (snd (Client.net w2)
          = snd (Client.net w)
            ++ (meta_q, p0)
               :: combine (map (fun i => Client.chunk_query i name)
                             (seq 0 (length ps))) ps) as Hlog
    by (rewrite Hlog2, Hlog1, <- app_assoc; reflexivity).
  assert (forall ps' p, ps = ps' ++ [p] ->
            Forall (fun p => answered p = true) ps'
            /\ (answered p = false -> is_ok r = false)) as Hlast.
  { intros ps' p ->. apply Forall_app in Hall as [Hinit' Hp].
    split; [exact Hinit' |]. apply Forall_inv in Hp. congruence. }
  assert (snd (Client.net w') = snd (Client.net w2)) as Hsame.
  { revert Hrun. destruct (Base64.b64decode_str _) as [data | e3];
      [| now intros [= _ <-]].
    destruct (negb _ && negb _); [now intros [= _ <-] |].
    destruct (negb _ && negb _); now intros [= _ <-]. }
  exists p0, ps. rewrite Hsame.
  split; [exact Hlog |]. split; [congruence |].
  split; [intros ? ? ? [= <- <-]; congruence |].
  split; [exact Hlast |].
  intros _. split; [now symmetry |]. split; [exact Hall |].
  exists meta_txt, w1, f. auto.
Qed.

Lemma fetchf_query_order_witness :
  let send := traced (Loopback.send hello_store) in
  let w := Client.World (0%N, []) ∅ in
  let r := fst (Client.fetchf send "hello" "out.bin" w) in
  let w' := snd (Client.fetchf send "hello" "out.bin" w) in
  let meta_q := "meta." +:+ "hello" +:+ "." +:+ Client.ZONE in
  exists p0 ps,
    snd (Client.net w')
    = snd (Client.net w)
      ++ (meta_q, p0)
         :: combine (map (fun i => Client.chunk_query i "hello")
                       (seq 0 (length ps))) ps
    /\ (answered p0 = false -> ps = [] /\ is_ok r = false)
    /\ (forall meta_txt w1 e,
          Client.queryt send meta_q w = (Ok meta_txt, w1) ->
          Client.read_fields (Client.parse_meta meta_txt) = Raise e ->
          ps = [] /\ is_ok r = false)
    /\ (forall ps' p, ps = ps' ++ [p] ->
        Forall (fun p => answered p = true) ps'
        /\ (answered p = false -> is_ok r = false))
    /\ (is_ok r = true ->
        answered p0 = true
        /\ Forall (fun p => answered p = true) ps
        /\ exists meta_txt w1 f,
             Client.queryt send meta_q w = (Ok meta_txt, w1)
             /\ Client.read_fields (Client.parse_meta meta_txt) = Ok f
             /\ length ps = Z.to_nat (Client.chunk_count f)).
Proof.
  intros send w r w' meta_q.
  apply (fetchf_query_order (Loopback.send hello_store) "hello" "out.bin" w
           w' r).
  apply surjective_pairing.
Defined.

(** X14. Whatever the transport answers, a fetch that succeeds has
    written data that passed every check the metadata asked for: the data
    is the base64 decoding of the answers to as many chunk queries as the
    metadata announced, its length is the announced one unless that is
    zero, and its digest is the announced one unless that is empty. *)
Theorem fetchf_success_checked {Net : Type}
    (send : string -> Net -> option Client.packet * Net)
    (name out_path p : string) (w w' : Client.world) :
  Client.fetchf send name out_path w = (Ok p, w') ->
  exists meta_txt w1 f chunks w2 data,
    Client.queryt send ("meta." +:+ name +:+ "." +:+ Client.ZONE) w
    = (Ok meta_txt, w1)
    /\ Client.read_fields (Client.parse_meta meta_txt) = Ok f
    /\ Client.fetch_loop send name 0 (Z.to_nat (Client.chunk_count f)) [] w1
       = (Ok chunks, w2)
    /\ length chunks = Z.to_nat (Client.chunk_count f)
    /\ Base64.b64decode_str (Py.join chunks) = Ok data
    /\ (Client.expected_bytes f <> 0%Z ->
        Z.of_nat (length data) = Client.expected_bytes f)
    /\ (Client.expected_sha f <> EmptyString ->
        Client.sha256_hex data = Client.expected_sha f)
    /\ p = out_path
    /\ w' = Client.World (Client.net w2)
              (<[out_path := data]> (Client.files w)).
Proof.
  rewrite fetchf_stages.
  destruct (Client.queryt send _ w) as [[meta_txt | e0] w1] eqn:Hq;
    [| discriminate].
  destruct (Client.read_fields (Client.parse_meta meta_txt)) as [f | e1] eqn:Hm;
    [| discriminate].
  destruct (Client.fetch_loop send name 0 _ [] w1)
    as [[chunks | e2] w2] eqn:Hl; [| discriminate].
  destruct (Base64.b64decode_str _) as [data | e3] eqn:Hd; [| discriminate].
  match goal with
  | |- context [if ?c then _ else _] => destruct c eqn:Hlen
  end; [discriminate |].
  match goal with
  | |- context [if ?c then _ else _] => destruct c eqn:Hsha
  end; [discriminate |].
  intros [= <- <-].
  exists meta_txt, w1, f, chunks, w2, data.
  pose proof (fetch_loop_length _ _ _ _ _ _ _ _ Hl) as Hcount.
  pose proof (queryt_files _ _ _ _ _ Hq) as Hf1.
  pose proof (fetch_loop_files _ _ _ _ _ _ _ _ Hl) as Hf2.
  repeat split; try reflexivity; try assumption.
  - intros Hnz. apply andb_false_iff in Hlen as [Hlen | Hlen].
    + apply negb_false_iff, Z.eqb_eq in Hlen. congruence.
    + now apply negb_false_iff, Z.eqb_eq in Hlen.
  - intros Hnz. apply andb_false_iff in Hsha as [Hsha | Hsha].
    + apply negb_false_iff, String.eqb_eq in Hsha. congruence.
    + now apply negb_false_iff, String.eqb_eq in Hsha.
  - f_equal. congruence.
Qed.

Lemma fetchf_success_checked_witness :
  exists meta_txt w1 f chunks w2 data,
    Client.queryt (Loopback.send hello_store)
      ("meta." +:+ "hello" +:+ "." +:+ Client.ZONE) (Client.World 0%N ∅)
    = (Ok meta_txt, w1)
    /\ Client.read_fields (Client.parse_meta meta_txt) = Ok f
    /\ Client.fetch_loop (Loopback.send hello_store) "hello" 0
         (Z.to_nat (Client.chunk_count f)) [] w1
       = (Ok chunks, w2)
    /\ length chunks = Z.to_nat (Client.chunk_count f)
    /\ Base64.b64decode_str (Py.join chunks) = Ok data
    /\ (Client.expected_bytes f <> 0%Z ->
        Z.of_nat (length data) = Client.expected_bytes f)
    /\ (Client.expected_sha f <> EmptyString ->
        Client.sha256_hex data = Client.expected_sha f)
    /\ "out.bin" = "out.bin"
    /\ Client.World 2%N {[ "out.bin" := hello_world ]}
       = Client.World (Client.net w2)
           (<["out.bin" := data]> (Client.files (Client.World 0%N ∅))).
Proof.
  apply (fetchf_success_checked (Loopback.send hello_store) "hello"
           "out.bin" "out.bin" (Client.World 0%N ∅)).
  vm_compute. reflexivity.
Defined.

(** X15. A metadata answer that announces no chunk, or a negative number
    of chunks, makes [fetchf] ask for no chunk at all: it raises when the
    announced length is not zero, and otherwise, when the announced
    digest is empty or is the digest of the empty sequence, it succeeds
    and writes an empty file. *)
Theorem fetchf_no_chunks {Net : Type}
    (send : string -> Net -> option Client.packet * Net)
    (name out_path meta_txt : string) (w w1 : Client.world)
    (f : Client.fields) :
  Client.queryt send ("meta." +:+ name +:+ "." +:+ Client.ZONE) w
  = (Ok meta_txt, w1) ->
  Client.read_fields (Client.parse_meta meta_txt) = Ok f ->
  (Client.chunk_count f <= 0)%Z ->
  (Client.expected_bytes f <> 0%Z ->
   Client.fetchf send name out_path w = (Raise RuntimeError, w1))
  /\ (Client.expected_bytes f = 0%Z ->
      Client.expected_sha f = EmptyString
      \/ Client.expected_sha f = Client.sha256_hex [] ->
      Client.fetchf send name out_path w
      = (Ok out_path,
         Client.World (Client.net w1)
           (<[out_path := []]> (Client.files w1)))).
Proof.
  intros Hq Hm Hcount. rewrite fetchf_stages, Hq, Hm.
  assert (Z.to_nat (Client.chunk_count f) = 0) as -> by lia.
  cbn [Client.fetch_loop]. unfold Client.ret.
  change (Base64.b64decode_str (Py.join [])) with (@Ok (list byte) []).
  cbv iota beta. change (Z.of_nat (length (@nil byte))) with 0%Z. split.
  - intros Hnz. rewrite (proj2 (Z.eqb_neq _ _) Hnz).
    assert ((0 =? Client.expected_bytes f)%Z = false) as ->
      by (apply Z.eqb_neq; congruence).
    reflexivity.
  - intros -> Hsha. cbn [Z.eqb negb andb].
    destruct Hsha as [-> | ->].
    + reflexivity.
    + rewrite String.eqb_refl. cbn [negb]. now rewrite andb_false_r.
Qed.

Lemma fetchf_no_chunks_witness :
  Client.fetchf
    (fun (_ : string) (sent : nat) =>
       (Some (Client.Packet 0 ["chunks=-3"]), S sent))
    "hello" "out.bin" (Client.World 0 ∅)
  = (Ok "out.bin", Client.World 1 (<["out.bin" := []]> ∅)).
Proof.
  refine (proj2 (fetchf_no_chunks
            (fun (_ : string) (sent : nat) =>
               (Some (Client.Packet 0 ["chunks=-3"]), S sent))
            "hello" "out.bin" "chunks=-3" (Client.World 0 ∅)
            (Client.World 1 ∅) (Client.Fields (-3) EmptyString 0)
            _ _ _) _ _);
    try (vm_compute; reflexivity).
  - vm_compute. discriminate.
  - now left.
Defined.
